(** * ReactiveEntityManager: entity dispatch, raw queries and transactions

    A shallow embedding of [src/entity-manager/ReactiveEntityManager.ts].

    - JavaScript values are a small inductive type with the two notions
      the source relies on: truthiness and the [constructor] property.
    - Synchronous code that may throw returns a [Completion].
    - The bodies of the two [async] arrow functions ([promiseFn]) live in
      a state-and-exception monad [Async] over a [World] that holds the
      heap (the manager object and the state of its collaborators), the
      number of [QueryRunnerProvider] objects constructed so far and the
      log of calls made to the collaborators. *)

From Stdlib Require Import List String Bool Arith Lia.
Import ListNotations.
Open Scope string_scope.
Open Scope list_scope.
Open Scope nat_scope.

(** ** JavaScript values *)

Inductive JsValue : Type :=
| JsUndefined
| JsString (s : string)
| JsNumber (n : nat)
| JsFunction (name : string)
| JsObject (ctor : string) (id : nat).

Inductive JsError : Type :=
| EntityManagerAlreadyReleasedError
| TypeError
| Thrown (v : JsValue).

(** The outcome of running a piece of code: a value, or an exception.
    For an awaited promise: fulfilled with a value or rejected. *)
Inductive Completion (A : Type) : Type :=
| Returns (a : A)
| Throws (e : JsError).

Arguments Returns {A} a.
Arguments Throws {A} e.

Definition JsValue_eq_dec (a b : JsValue) : {a = b} + {a <> b}.
Proof. decide equality; solve [apply string_dec | apply Nat.eq_dec]. Defined.

(** ToBoolean on the values above. *)
Definition truthy (v : JsValue) : bool :=
  match v with
  | JsUndefined => false
  | JsString s => negb (String.eqb s "")
  | JsNumber n => negb (Nat.eqb n 0)
  | JsFunction _ => true
  | JsObject _ _ => true
  end.

(** [v.constructor]; reading a property of [undefined] throws. *)
Definition constructor_of (v : JsValue) : Completion JsValue :=
  match v with
  | JsUndefined => Throws TypeError
  | JsString _ => Returns (JsFunction "String")
  | JsNumber _ => Returns (JsFunction "Number")
  | JsFunction _ => Returns (JsFunction "Function")
  | JsObject c _ => Returns (JsFunction c)
  end.

Definition bindC {A B} (c : Completion A) (k : A -> Completion B) : Completion B :=
  match c with
  | Returns a => k a
  | Throws e => Throws e
  end.

(** ** Entity dispatch: persist, remove and the find family *)

(** The reactive repository a target resolves to. Every method returns a
    stream; a method with optional parameters receives the list of the
    arguments it was called with. *)
Record ReactiveRepository (Stream : Type) : Type := {
  repo_persist : JsValue -> Stream;
  repo_remove : JsValue -> Stream;
  repo_find : list JsValue -> Stream;
  repo_findAndCount : list JsValue -> Stream;
  repo_findOne : list JsValue -> Stream;
  repo_findOneById : list JsValue -> Stream
}.

Arguments repo_persist {Stream} _ _.
Arguments repo_remove {Stream} _ _.
Arguments repo_find {Stream} _ _.
Arguments repo_findAndCount {Stream} _ _.
Arguments repo_findOne {Stream} _ _.
Arguments repo_findOneById {Stream} _ _.

Section Dispatch.

Variable Stream : Type.

(** [BaseEntityManager.getReactiveRepository], inherited; it is given
    the resolved target and may throw. *)
Variable getReactiveRepository : JsValue -> Completion (ReactiveRepository Stream).

(** The target and the entity of [persist] and [remove], computed from
    the [arguments] object. *)
Definition target_of (arguments : list JsValue) : Completion JsValue :=
  let targetOrEntity := nth 0 arguments JsUndefined in
  if List.length arguments =? 2 then Returns targetOrEntity
  else constructor_of targetOrEntity.

Definition entity_of (arguments : list JsValue) : JsValue :=
  let targetOrEntity := nth 0 arguments JsUndefined in
  let maybeEntity := nth 1 arguments JsUndefined in
  if List.length arguments =? 2 then maybeEntity else targetOrEntity.

Definition persist (arguments : list JsValue) : Completion Stream :=
  bindC (target_of arguments) (fun target =>
  let entity := entity_of arguments in
  bindC (getReactiveRepository target) (fun repo =>
  Returns (repo_persist repo entity))).

Definition remove (arguments : list JsValue) : Completion Stream :=
  bindC (target_of arguments) (fun target =>
  let entity := entity_of arguments in
  bindC (getReactiveRepository target) (fun repo =>
  Returns (repo_remove repo entity))).

(** The common shape of [find], [findAndCount] and [findOne]; [method]
    selects the repository method. An omitted parameter is
    [JsUndefined]. *)
Definition dispatch_find
    (method : ReactiveRepository Stream -> list JsValue -> Stream)
    (entityClass conditionsOrFindOptions options : JsValue) : Completion Stream :=
  if truthy conditionsOrFindOptions && truthy options then
    bindC (getReactiveRepository entityClass) (fun repo =>
    Returns (method repo [conditionsOrFindOptions; options]))
  else if truthy conditionsOrFindOptions then
    bindC (getReactiveRepository entityClass) (fun repo =>
    Returns (method repo [conditionsOrFindOptions]))
  else
    bindC (getReactiveRepository entityClass) (fun repo =>
    Returns (method repo [])).

Definition find := dispatch_find repo_find.
Definition findAndCount := dispatch_find repo_findAndCount.
Definition findOne := dispatch_find repo_findOne.

Definition findOneById (entityClass id options : JsValue) : Completion Stream :=
  bindC (getReactiveRepository entityClass) (fun repo =>
  Returns (repo_findOneById repo [id; options])).

End Dispatch.

Arguments persist {Stream} _ _.
Arguments remove {Stream} _ _.
Arguments find {Stream} _ _ _ _.
Arguments findAndCount {Stream} _ _ _ _.
Arguments findOne {Stream} _ _ _ _.
Arguments findOneById {Stream} _ _ _ _.

(** A repository resolver that records, as its stream, the call that
    produced it: the target it was resolved from, the method and the
    arguments forwarded. *)
Record RepositoryCall : Type := {
  call_target : JsValue;
  call_method : string;
  call_args : list JsValue
}.

Definition recording_repository (target : JsValue) : ReactiveRepository RepositoryCall := {|
  repo_persist := fun e => {| call_target := target; call_method := "persist"; call_args := [e] |};
  repo_remove := fun e => {| call_target := target; call_method := "remove"; call_args := [e] |};
  repo_find := fun a => {| call_target := target; call_method := "find"; call_args := a |};
  repo_findAndCount := fun a => {| call_target := target; call_method := "findAndCount"; call_args := a |};
  repo_findOne := fun a => {| call_target := target; call_method := "findOne"; call_args := a |};
  repo_findOneById := fun a => {| call_target := target; call_method := "findOneById"; call_args := a |}
|}.

Definition recording_resolver (target : JsValue) : Completion (ReactiveRepository RepositoryCall) :=
  Returns (recording_repository target).

(** A resolver that has a repository for the target [known] and for no
    other. *)
Definition only_repository (known target : JsValue)
  : Completion (ReactiveRepository RepositoryCall) :=
  if JsValue_eq_dec target known
  then Returns (recording_repository target)
  else Throws (Thrown (JsString "no repository")).

(** A resolver that finds no repository for any target. *)
Definition no_repository (target : JsValue) : Completion (ReactiveRepository RepositoryCall) :=
  Throws (Thrown (JsString "no repository")).

(** ** Computations over a world *)

(** Code that reads and writes a world [W] and either returns or throws.
    Inside an [async] function a rejected awaited promise is a throw, and
    the function's own promise settles with the completion of its body. *)
Definition Js (W A : Type) : Type := W -> Completion A * W.

Definition ret {W A} (a : A) : Js W A := fun w => (Returns a, w).

Definition throw {W A} (e : JsError) : Js W A := fun w => (Throws e, w).

Definition bind {W A B} (c : Js W A) (k : A -> Js W B) : Js W B :=
  fun w =>
    match c w with
    | (Returns a, w1) => k a w1
    | (Throws e, w1) => (Throws e, w1)
    end.

Notation "x <- c ;; k" := (bind c (fun x => k))
  (at level 61, c at next level, right associativity).
Notation "c ;; k" := (bind c (fun _ => k))
  (at level 61, right associativity).

(** [try { body } catch (err) { handler err }] *)
Definition try_catch {W A} (body : Js W A) (handler : JsError -> Js W A) : Js W A :=
  fun w =>
    match body w with
    | (Returns a, w1) => (Returns a, w1)
    | (Throws e, w1) => handler e w1
    end.

(** [try { body } finally { cleanup }]: the cleanup runs on every exit of
    the body; when the cleanup throws, its exception replaces the
    completion of the body. *)
Definition try_finally {W A} (body : Js W A) (cleanup : Js W unit) : Js W A :=
  fun w =>
    match body w with
    | (r, w1) =>
        match cleanup w1 with
        | (Returns _, w2) => (r, w2)
        | (Throws e, w2) => (Throws e, w2)
        end
    end.

(** ** The manager, its collaborators and the world *)

Definition Driver : Type := nat.

(** Object references. *)
Definition QueryRunnerProvider : Type := nat.
Definition QueryRunner : Type := nat.

(** Modelled from the spec: the fields of the manager, which are declared
    by [BaseEntityManager] (not part of the sources at hand). The spec's
    data model gives the instance state as a connection reference, the
    [useSingleDatabaseConnection] flag, an optional shared provider and
    the [isReleased] flag. *)
Record Manager : Type := {
  connection_driver : Driver;
  useSingleDatabaseConnection : bool;
  queryRunnerProvider : option QueryRunnerProvider;
  isReleased : bool
}.

(** The calls the manager makes to its collaborators, and the operations
    the unit of work performs on its own ([UnitOfWorkOp]: whatever they
    are, they are not calls made by the manager). *)
Inductive Effect : Type :=
| Provide (p : QueryRunnerProvider)
| Release (p : QueryRunnerProvider) (qr : QueryRunner)
| RunQuery (qr : QueryRunner) (sql : string)
| BeginTransaction (qr : QueryRunner)
| CommitTransaction (qr : QueryRunner)
| RollbackTransaction (qr : QueryRunner)
| UnitOfWorkOp (op : string).

Definition is_provide (e : Effect) : bool :=
  match e with Provide _ => true | _ => false end.
Definition is_release (e : Effect) : bool :=
  match e with Release _ _ => true | _ => false end.
Definition is_begin (e : Effect) : bool :=
  match e with BeginTransaction _ => true | _ => false end.
Definition is_commit (e : Effect) : bool :=
  match e with CommitTransaction _ => true | _ => false end.
Definition is_rollback (e : Effect) : bool :=
  match e with RollbackTransaction _ => true | _ => false end.

Definition count (p : Effect -> bool) (t : list Effect) : nat :=
  List.length (filter p t).

(** An effect that, when it is an acquisition or a release, concerns the
    provider [p]. *)
Definition on_provider (p : QueryRunnerProvider) (e : Effect) : Prop :=
  match e with
  | Provide q => q = p
  | Release q _ => q = p
  | _ => True
  end.

(** The events a stream delivers to a subscriber. *)
Inductive Notification : Type :=
| Next (v : JsValue)
| Complete
| Error (e : JsError).

Section Operations.

(** The state of everything outside the manager: drivers, connections,
    the database, the caller's own objects. *)
Variable Env : Type.

Record Heap : Type := {
  this : Manager;
  env : Env
}.

(** [constructed] counts the providers built with
    [new QueryRunnerProvider(...)]; the next one gets that number as
    its reference. [trace] is the log of effects, oldest first. *)
Record World : Type := {
  heap : Heap;
  constructed : nat;
  trace : list Effect
}.

(** An awaited call to a collaborator: it settles, and may have changed
    anything in the heap meanwhile (including the manager's flags, which
    are set from outside). *)
Definition External (A : Type) : Type := Heap -> Completion A * Heap.

Record Collaborators : Type := {
  provide : QueryRunnerProvider -> External QueryRunner;
  release : QueryRunnerProvider -> QueryRunner -> External unit;
  runner_query : QueryRunner -> string -> External JsValue;
  beginTransaction : QueryRunner -> External unit;
  commitTransaction : QueryRunner -> External unit;
  rollbackTransaction : QueryRunner -> External unit
}.

(** The caller's [runInTransaction]: it settles, changes the heap and
    performs operations of its own, reported in order. *)
Definition UnitOfWork : Type := Heap -> Completion JsValue * Heap * list string.

Variable X : Collaborators.

Definition await {A} (eff : Effect) (call : External A) : Js World A :=
  fun w =>
    match call (heap w) with
    | (r, h) => (r, {| heap := h; constructed := constructed w; trace := trace w ++ [eff] |})
    end.

Definition await_unit_of_work (runInTransaction : UnitOfWork) : Js World JsValue :=
  fun w =>
    match runInTransaction (heap w) with
    | (r, h, ops) =>
        (r, {| heap := h; constructed := constructed w;
               trace := trace w ++ map UnitOfWorkOp ops |})
    end.

Definition read_this : Js World Manager :=
  fun w => (Returns (this (heap w)), w).

(** [new QueryRunnerProvider(driver)] *)
Definition new_QueryRunnerProvider (d : Driver) : Js World QueryRunnerProvider :=
  fun w => (Returns (constructed w),
            {| heap := heap w; constructed := S (constructed w); trace := trace w |}).

(** [if (this.useSingleDatabaseConnection && this.isReleased) throw ...] *)
Definition released_guard : Js World unit :=
  m <- read_this ;;
  if useSingleDatabaseConnection m && isReleased m
  then throw EntityManagerAlreadyReleasedError
  else ret tt.

(** [this.queryRunnerProvider || new QueryRunnerProvider(this.connection.driver)] *)
Definition provider_or_new : Js World QueryRunnerProvider :=
  m <- read_this ;;
  match queryRunnerProvider m with
  | Some p => ret p
  | None => new_QueryRunnerProvider (connection_driver m)
  end.

(** The [promiseFn] of [query]. *)
Definition query_promiseFn (query : string) : Js World JsValue :=
  released_guard ;;
  p <- provider_or_new ;;
  queryRunner <- await (Provide p) (provide X p) ;;
  try_finally
    (result <- await (RunQuery queryRunner query) (runner_query X queryRunner query) ;;
     ret result)
    (await (Release p queryRunner) (release X p queryRunner)).

(** The [promiseFn] of [transaction]. *)
Definition transaction_promiseFn (runInTransaction : UnitOfWork) : Js World JsValue :=
  released_guard ;;
  p <- provider_or_new ;;
  queryRunner <- await (Provide p) (provide X p) ;;
  try_finally
    (try_catch
       (await (BeginTransaction queryRunner) (beginTransaction X queryRunner) ;;
        result <- await_unit_of_work runInTransaction ;;
        await (CommitTransaction queryRunner) (commitTransaction X queryRunner) ;;
        ret result)
       (fun err =>
          await (RollbackTransaction queryRunner) (rollbackTransaction X queryRunner) ;;
          throw err))
    (await (Release p queryRunner) (release X p queryRunner)).

(** Modelled from the spec: the task bridge [Rx.Observable.fromPromise]
    applied to a thunk, which belongs to the rxjs package and is not
    part of the sources at hand. Following the spec, the stream is cold:
    building it runs nothing, every activation invokes the thunk again,
    and the stream delivers one value followed by completion, or one
    failure. Activations run to completion one after the other. *)
Record Observable : Type := {
  thunk : Js World JsValue
}.

Definition fromPromise (promiseFn : Js World JsValue) : Observable :=
  {| thunk := promiseFn |}.

Definition notifications (r : Completion JsValue) : list Notification :=
  match r with
  | Returns v => [Next v; Complete]
  | Throws e => [Error e]
  end.

Definition subscribe (o : Observable) (w : World) : list Notification * World :=
  match thunk o w with
  | (r, w1) => (notifications r, w1)
  end.

Definition query (sql : string) : Js World Observable :=
  ret (fromPromise (query_promiseFn sql)).

Definition transaction (runInTransaction : UnitOfWork) : Js World Observable :=
  ret (fromPromise (transaction_promiseFn runInTransaction)).

(** A call to one of the two lifecycle operations, and the thunk its
    stream holds. *)
Inductive Call : Type :=
| QueryCall (sql : string)
| TransactionCall (runInTransaction : UnitOfWork).

Definition thunk_of (c : Call) : Js World JsValue :=
  match c with
  | QueryCall sql => query_promiseFn sql
  | TransactionCall fn => transaction_promiseFn fn
  end.

Definition stream_of (c : Call) : Observable := fromPromise (thunk_of c).

Definition call (c : Call) : Js World Observable :=
  match c with
  | QueryCall sql => query sql
  | TransactionCall fn => transaction fn
  end.

(** Subscribing to the streams of the calls [cs], one after the other. *)
Fixpoint subscribe_all (cs : list Call) (w : World) : list (list Notification) * World :=
  match cs with
  | [] => ([], w)
  | c :: rest =>
      match subscribe (stream_of c) w with
      | (n, w1) =>
          match subscribe_all rest w1 with
          | (ns, w2) => (n :: ns, w2)
          end
      end
  end.

(** The provider an activation works with, and the number of providers
    constructed once it has chosen. *)
Definition provider_at (w : World) : QueryRunnerProvider :=
  match queryRunnerProvider (this (heap w)) with
  | Some p => p
  | None => constructed w
  end.

Definition constructed_at (w : World) : nat :=
  match queryRunnerProvider (this (heap w)) with
  | Some _ => constructed w
  | None => S (constructed w)
  end.

(** The world an activation started in [w] leaves when its calls left
    the heap [h] and appended the effects [t]. *)
Definition after (w : World) (h : Heap) (t : list Effect) : World :=
  {| heap := h; constructed := constructed_at w; trace := trace w ++ t |}.

Definition refused (w : World) : bool :=
  useSingleDatabaseConnection (this (heap w)) && isReleased (this (heap w)).

(** An activation started in [w] gets a runner: the guard lets it through
    and [provide()] resolves. *)
Definition acquires (w : World) : Prop :=
  refused w = false /\
  exists qr h, provide X (provider_at w) (heap w) = (Returns qr, h).

(** A call that leaves the manager object as it found it. *)
Definition keeps_manager {A} (c : Heap -> A * Heap) : Prop :=
  forall h, this (snd (c h)) = this h.

Definition collaborators_keep_manager : Prop :=
  (forall p, keeps_manager (provide X p)) /\
  (forall p qr, keeps_manager (release X p qr)) /\
  (forall qr sql, keeps_manager (runner_query X qr sql)) /\
  (forall qr, keeps_manager (beginTransaction X qr)) /\
  (forall qr, keeps_manager (commitTransaction X qr)) /\
  (forall qr, keeps_manager (rollbackTransaction X qr)).

(** A computation that leaves the manager object as it found it. *)
Definition preserves_manager {A} (c : Js World A) : Prop :=
  forall w, this (heap (snd (c w))) = this (heap w).

Definition unit_of_work_keeps_manager (fn : UnitOfWork) : Prop :=
  forall h, this (snd (fst (fn h))) = this h.

Definition call_keeps_manager (c : Call) : Prop :=
  match c with
  | QueryCall _ => True
  | TransactionCall fn => unit_of_work_keeps_manager fn
  end.

(** What a [catch] block that awaits a call and then rethrows [err]
    completes with, given how the call settled. *)
Definition rethrow_after (err : JsError) (c : Completion unit) : Completion JsValue :=
  match c with
  | Returns _ => Throws err
  | Throws e => Throws e
  end.

(** What a [try] completes with once its [finally] block has awaited a
    call that settled with [c]. *)
Definition finally_after (r : Completion JsValue) (c : Completion unit)
  : Completion JsValue :=
  match c with
  | Returns _ => r
  | Throws e => Throws e
  end.

(** The commit or rollback calls of one transaction attempt on the
    runner [qr]. *)
Inductive decision (qr : QueryRunner) : list Effect -> Prop :=
| decision_commit : decision qr [CommitTransaction qr]
| decision_rollback : decision qr [RollbackTransaction qr]
| decision_failed_commit : decision qr [CommitTransaction qr; RollbackTransaction qr].

(** The effects of one activation of the stream of [query]. *)
Inductive query_cycle (sql : string) : list Effect -> Prop :=
| cycle_refused : query_cycle sql []
| cycle_not_acquired p : query_cycle sql [Provide p]
| cycle_full p qr : query_cycle sql [Provide p; RunQuery qr sql; Release p qr].

End Operations.

Arguments this {Env} _.
Arguments env {Env} _.
Arguments Build_Heap {Env} _ _.
Arguments heap {Env} _.
Arguments constructed {Env} _.
Arguments trace {Env} _.
Arguments Build_World {Env} _ _ _.
Arguments provide {Env} _ _ _.
Arguments release {Env} _ _ _ _.
Arguments runner_query {Env} _ _ _ _.
Arguments beginTransaction {Env} _ _ _.
Arguments commitTransaction {Env} _ _ _.
Arguments rollbackTransaction {Env} _ _ _.
Arguments await {Env A} _ _ _.
Arguments await_unit_of_work {Env} _ _.
Arguments released_guard {Env} _.
Arguments provider_or_new {Env} _.
Arguments query_promiseFn {Env} _ _ _.
Arguments transaction_promiseFn {Env} _ _ _.
Arguments thunk {Env} _ _.
Arguments Observable Env : clear implicits.
Arguments fromPromise {Env} _.
Arguments subscribe {Env} _ _.
Arguments query {Env} _ _ _.
Arguments transaction {Env} _ _ _.
Arguments provider_at {Env} _.
Arguments constructed_at {Env} _.
Arguments after {Env} _ _ _.
Arguments refused {Env} _.
Arguments Call Env : clear implicits.
Arguments QueryCall {Env} _.
Arguments TransactionCall {Env} _.
Arguments thunk_of {Env} _ _.
Arguments stream_of {Env} _ _.
Arguments call {Env} _ _.
Arguments subscribe_all {Env} _ _ _.
Arguments acquires {Env} _ _.
Arguments keeps_manager {Env A} _.
Arguments collaborators_keep_manager {Env} _.
Arguments unit_of_work_keeps_manager {Env} _.
Arguments preserves_manager {Env A} _.
Arguments call_keeps_manager {Env} _.
Arguments UnitOfWork Env : clear implicits.

(** ** Concrete collaborators

    A scripted driver whose environment is the number of statements run
    so far. Each flag of the script makes the corresponding call reject. *)
Module Scenario.

Record Script : Type := {
  provide_rejects : bool;
  query_rejects : bool;
  begin_rejects : bool;
  commit_rejects : bool;
  rollback_rejects : bool;
  release_rejects : bool
}.

Definition all_resolve : Script :=
  {| provide_rejects := false; query_rejects := false; begin_rejects := false;
     commit_rejects := false; rollback_rejects := false; release_rejects := false |}.

Definition provide_fails : Script :=
  {| provide_rejects := true; query_rejects := false; begin_rejects := false;
     commit_rejects := false; rollback_rejects := false; release_rejects := false |}.

Definition commit_fails : Script :=
  {| provide_rejects := false; query_rejects := false; begin_rejects := false;
     commit_rejects := true; rollback_rejects := false; release_rejects := false |}.

Definition rollback_fails : Script :=
  {| provide_rejects := false; query_rejects := false; begin_rejects := false;
     commit_rejects := false; rollback_rejects := true; release_rejects := false |}.

Definition release_fails : Script :=
  {| provide_rejects := false; query_rejects := false; begin_rejects := false;
     commit_rejects := false; rollback_rejects := false; release_rejects := true |}.

Definition query_fails : Script :=
  {| provide_rejects := false; query_rejects := true; begin_rejects := false;
     commit_rejects := false; rollback_rejects := false; release_rejects := false |}.

Definition begin_fails : Script :=
  {| provide_rejects := false; query_rejects := false; begin_rejects := true;
     commit_rejects := false; rollback_rejects := false; release_rejects := false |}.

Definition failure (what : string) : JsError := Thrown (JsString what).

Definition settle {A} (rejects : bool) (what : string) (a : A) (h : Heap nat)
  : Completion A * Heap nat :=
  if rejects then (Throws (failure what), h) else (Returns a, h).

Definition scripted (s : Script) : Collaborators nat := {|
  provide := fun p => settle (provide_rejects s) "provide" (100 + p);
  release := fun _ _ => settle (release_rejects s) "release" tt;
  runner_query := fun _ _ h =>
    settle (query_rejects s) "query" (JsObject "Rows" (env h))
           {| this := this h; env := S (env h) |};
  beginTransaction := fun _ => settle (begin_rejects s) "begin" tt;
  commitTransaction := fun _ => settle (commit_rejects s) "commit" tt;
  rollbackTransaction := fun _ => settle (rollback_rejects s) "rollback" tt
|}.

Definition manager (single : bool) (shared : option QueryRunnerProvider) (released : bool)
  : Manager :=
  {| connection_driver := 7; useSingleDatabaseConnection := single;
     queryRunnerProvider := shared; isReleased := released |}.

Definition start (m : Manager) : World nat :=
  {| heap := {| this := m; env := 0 |}; constructed := 0; trace := [] |}.

Definition per_call : World nat := start (manager false None false).
Definition per_call_released : World nat := start (manager false None true).
Definition single : World nat := start (manager true (Some 5) false).
Definition single_released : World nat := start (manager true (Some 5) true).
Definition single_unset : World nat := start (manager true None false).

(** [async () => { await repo.persist(x); return 42; }] *)
Definition persist_then_42 : UnitOfWork nat :=
  fun h => (Returns (JsNumber 42), h, ["persist(x)"]).

(** [async () => { await repo.persist(x); throw "boom"; }] *)
Definition persist_then_throw : UnitOfWork nat :=
  fun h => (Throws (failure "boom"), h, ["persist(x)"]).

(** A unit of work during which the manager is disposed. *)
Definition dispose_then_42 : UnitOfWork nat :=
  fun h =>
    (Returns (JsNumber 42),
     {| this := {| connection_driver := connection_driver (this h);
                   useSingleDatabaseConnection := useSingleDatabaseConnection (this h);
                   queryRunnerProvider := queryRunnerProvider (this h);
                   isReleased := true |};
        env := env h |},
     ["manager.release()"]).

(** The stream of [query("SELECT 1")] with a driver that never fails. *)
Definition select_1 : Observable nat :=
  stream_of (scripted all_resolve) (QueryCall "SELECT 1").

End Scenario.

(** * Properties *)

(** ** Symbolic execution of the two thunks *)

Ltac unfold_js :=
  unfold query_promiseFn, transaction_promiseFn, released_guard, provider_or_new,
    new_QueryRunnerProvider, read_this, try_finally, try_catch, await,
    await_unit_of_work, bind, ret, throw, after, provider_at, constructed_at,
    refused, finally_after, rethrow_after in *.

Ltac exec_step :=
  match goal with
  | H : ?c = _ |- context [?c] => rewrite H
  | |- context [match queryRunnerProvider ?m with _ => _ end] =>
      destruct (queryRunnerProvider m)
  | |- context [match ?c with Returns _ => _ | Throws _ => _ end] =>
      is_var c; destruct c
  end.

Ltac exec :=
  unfold_js; cbn in *;
  repeat (exec_step; cbn in *);
  rewrite <- ?app_assoc; cbn; try reflexivity.

(** ** Counting effects *)

Lemma count_app f (a b : list Effect) : count f (a ++ b) = count f a + count f b.
Proof. unfold count. rewrite filter_app, length_app. reflexivity. Qed.

Lemma count_unit_of_work_ops f ops :
  (forall op, f (UnitOfWorkOp op) = false) ->
  count f (map UnitOfWorkOp ops) = 0.
Proof.
  intros Hf. unfold count.
  induction ops as [|op ops IH]; cbn; [reflexivity|].
  rewrite Hf. exact IH.
Qed.

Lemma decision_counts qr d :
  decision qr d ->
  count is_commit d <= 1 /\ count is_rollback d <= 1 /\
  1 <= count is_commit d + count is_rollback d /\
  count is_provide d = 0 /\ count is_release d = 0 /\ count is_begin d = 0.
Proof. intros D. destruct D; cbn; repeat split; lia. Qed.

Ltac count_effects :=
  repeat rewrite count_app;
  repeat (rewrite count_unit_of_work_ops by reflexivity);
  cbn.

Section Lifecycle.

Variable Env : Type.
Variable X : Collaborators Env.

Implicit Types (w : World Env) (h : Heap Env) (fn : UnitOfWork Env).

Lemma query_refused sql w :
  refused w = true ->
  query_promiseFn X sql w = (Throws EntityManagerAlreadyReleasedError, w).
Proof. intros G. exec. Qed.

Lemma query_not_acquired sql w e h1 :
  refused w = false ->
  provide X (provider_at w) (heap w) = (Throws e, h1) ->
  query_promiseFn X sql w = (Throws e, after w h1 [Provide (provider_at w)]).
Proof. intros G P. exec. Qed.

Lemma query_acquired sql w qr h1 r2 h2 r3 h3 :
  refused w = false ->
  provide X (provider_at w) (heap w) = (Returns qr, h1) ->
  runner_query X qr sql h1 = (r2, h2) ->
  release X (provider_at w) qr h2 = (r3, h3) ->
  query_promiseFn X sql w =
    (finally_after r2 r3,
     after w h3 [Provide (provider_at w); RunQuery qr sql; Release (provider_at w) qr]).
Proof. intros G P Q R. exec. Qed.

Lemma transaction_refused fn w :
  refused w = true ->
  transaction_promiseFn X fn w = (Throws EntityManagerAlreadyReleasedError, w).
Proof. intros G. exec. Qed.

Lemma transaction_not_acquired fn w e h1 :
  refused w = false ->
  provide X (provider_at w) (heap w) = (Throws e, h1) ->
  transaction_promiseFn X fn w = (Throws e, after w h1 [Provide (provider_at w)]).
Proof. intros G P. exec. Qed.

Lemma transaction_begin_rejected fn w qr h1 e h2 r3 h3 r4 h4 :
  refused w = false ->
  provide X (provider_at w) (heap w) = (Returns qr, h1) ->
  beginTransaction X qr h1 = (Throws e, h2) ->
  rollbackTransaction X qr h2 = (r3, h3) ->
  release X (provider_at w) qr h3 = (r4, h4) ->
  transaction_promiseFn X fn w =
    (finally_after (rethrow_after e r3) r4,
     after w h4 ([Provide (provider_at w); BeginTransaction qr] ++ []
                 ++ [RollbackTransaction qr] ++ [Release (provider_at w) qr])).
Proof. intros G P B RB R. exec. Qed.

Lemma transaction_unit_rejected fn w qr h1 u h2 e h3 ops r4 h4 r5 h5 :
  refused w = false ->
  provide X (provider_at w) (heap w) = (Returns qr, h1) ->
  beginTransaction X qr h1 = (Returns u, h2) ->
  fn h2 = (Throws e, h3, ops) ->
  rollbackTransaction X qr h3 = (r4, h4) ->
  release X (provider_at w) qr h4 = (r5, h5) ->
  transaction_promiseFn X fn w =
    (finally_after (rethrow_after e r4) r5,
     after w h5 ([Provide (provider_at w); BeginTransaction qr] ++ map UnitOfWorkOp ops
                 ++ [RollbackTransaction qr] ++ [Release (provider_at w) qr])).
Proof. intros G P B F RB R. exec. Qed.

Lemma transaction_commit_rejected fn w qr h1 u h2 v h3 ops e h4 r5 h5 r6 h6 :
  refused w = false ->
  provide X (provider_at w) (heap w) = (Returns qr, h1) ->
  beginTransaction X qr h1 = (Returns u, h2) ->
  fn h2 = (Returns v, h3, ops) ->
  commitTransaction X qr h3 = (Throws e, h4) ->
  rollbackTransaction X qr h4 = (r5, h5) ->
  release X (provider_at w) qr h5 = (r6, h6) ->
  transaction_promiseFn X fn w =
    (finally_after (rethrow_after e r5) r6,
     after w h6 ([Provide (provider_at w); BeginTransaction qr] ++ map UnitOfWorkOp ops
                 ++ [CommitTransaction qr; RollbackTransaction qr]
                 ++ [Release (provider_at w) qr])).
Proof. intros G P B F C RB R. exec. Qed.

Lemma transaction_committed fn w qr h1 u h2 v h3 ops u' h4 r5 h5 :
  refused w = false ->
  provide X (provider_at w) (heap w) = (Returns qr, h1) ->
  beginTransaction X qr h1 = (Returns u, h2) ->
  fn h2 = (Returns v, h3, ops) ->
  commitTransaction X qr h3 = (Returns u', h4) ->
  release X (provider_at w) qr h4 = (r5, h5) ->
  transaction_promiseFn X fn w =
    (finally_after (Returns v) r5,
     after w h5 ([Provide (provider_at w); BeginTransaction qr] ++ map UnitOfWorkOp ops
                 ++ [CommitTransaction qr] ++ [Release (provider_at w) qr])).
Proof. intros G P B F C R. exec. Qed.

(** Every activation that got a runner goes through one of the shapes
    below, whatever the calls that follow settle with. *)
Lemma query_shape sql w qr h1 :
  refused w = false ->
  provide X (provider_at w) (heap w) = (Returns qr, h1) ->
  exists r h,
    query_promiseFn X sql w =
      (r, after w h [Provide (provider_at w); RunQuery qr sql; Release (provider_at w) qr]).
Proof.
  intros G P.
  destruct (runner_query X qr sql h1) as [r2 h2] eqn:Q.
  destruct (release X (provider_at w) qr h2) as [r3 h3] eqn:R.
  eexists _, _. eapply query_acquired; eassumption.
Qed.

Lemma transaction_shape fn w qr h1 :
  refused w = false ->
  provide X (provider_at w) (heap w) = (Returns qr, h1) ->
  exists r h ops d,
    transaction_promiseFn X fn w =
      (r, after w h ([Provide (provider_at w); BeginTransaction qr] ++ map UnitOfWorkOp ops
                     ++ d ++ [Release (provider_at w) qr])) /\
    decision qr d /\
    (forall v, r = Returns v -> d = [CommitTransaction qr]) /\
    (d = [CommitTransaction qr] ->
     exists h3 u h4, commitTransaction X qr h3 = (Returns u, h4)) /\
    (d = [CommitTransaction qr; RollbackTransaction qr] ->
     exists h3 e h4, commitTransaction X qr h3 = (Throws e, h4)).
Proof.
  intros G P.
  destruct (beginTransaction X qr h1) as [[u|e] h2] eqn:B.
  - destruct (fn h2) as [[[v|e] h3] ops] eqn:F.
    + destruct (commitTransaction X qr h3) as [[u'|e] h4] eqn:C.
      * destruct (release X (provider_at w) qr h4) as [r5 h5] eqn:R.
        eexists _, _, ops, _. split; [eapply transaction_committed; eassumption|].
        split; [constructor|]. split; [reflexivity|].
        split; [intros _; eexists _, _, _; exact C | discriminate].
      * destruct (rollbackTransaction X qr h4) as [r5 h5] eqn:RB.
        destruct (release X (provider_at w) qr h5) as [r6 h6] eqn:R.
        eexists _, _, ops, _. split; [eapply transaction_commit_rejected; eassumption|].
        split; [constructor|].
        split; [intros v0 Hv; destruct r5, r6; discriminate Hv|].
        split; [discriminate | intros _; eexists _, _, _; exact C].
    + destruct (rollbackTransaction X qr h3) as [r4 h4] eqn:RB.
      destruct (release X (provider_at w) qr h4) as [r5 h5] eqn:R.
      eexists _, _, ops, _. split; [eapply transaction_unit_rejected; eassumption|].
      split; [constructor|].
      split; [intros v Hv; destruct r4, r5; discriminate Hv|].
      split; discriminate.
  - destruct (rollbackTransaction X qr h2) as [r3 h3] eqn:RB.
    destruct (release X (provider_at w) qr h3) as [r4 h4] eqn:R.
    eexists _, _, [], _. split; [eapply transaction_begin_rejected; eassumption|].
    split; [constructor|].
    split; [intros v Hv; destruct r3, r4; discriminate Hv|].
    split; discriminate.
Qed.

Lemma subscribe_runs_thunk (c : Call Env) w :
  subscribe (stream_of X c) w =
    (notifications (fst (thunk_of X c w)), snd (thunk_of X c w)).
Proof.
  unfold subscribe, stream_of, fromPromise; cbn.
  destruct (thunk_of X c w); reflexivity.
Qed.

Lemma thunk_refused (c : Call Env) w :
  refused w = true ->
  thunk_of X c w = (Throws EntityManagerAlreadyReleasedError, w).
Proof.
  intros G. destruct c; cbn; [apply query_refused | apply transaction_refused]; exact G.
Qed.

Lemma thunk_not_acquired (c : Call Env) w e h1 :
  refused w = false ->
  provide X (provider_at w) (heap w) = (Throws e, h1) ->
  thunk_of X c w = (Throws e, after w h1 [Provide (provider_at w)]).
Proof.
  intros G P.
  destruct c; cbn; [eapply query_not_acquired | eapply transaction_not_acquired]; eassumption.
Qed.

(** An activation that got the runner [qr] from the provider: its effects
    are the [provide()] call, then calls that neither acquire nor release,
    then the [release()] of that very runner to that very provider. *)
Lemma thunk_acquired (c : Call Env) w qr h1 :
  refused w = false ->
  provide X (provider_at w) (heap w) = (Returns qr, h1) ->
  exists r h mid,
    thunk_of X c w =
      (r, after w h (Provide (provider_at w) :: mid ++ [Release (provider_at w) qr])) /\
    count is_provide mid = 0 /\ count is_release mid = 0.
Proof.
  intros G P. destruct c as [sql|fn]; cbn.
  - destruct (query_shape sql w qr h1 G P) as (r & h & E).
    exists r, h, [RunQuery qr sql]. rewrite E. repeat split.
  - destruct (transaction_shape fn w qr h1 G P) as (r & h & ops & d & E & D & _).
    exists r, h, (BeginTransaction qr :: map UnitOfWorkOp ops ++ d).
    rewrite E. split.
    + cbn. rewrite <- app_assoc. reflexivity.
    + apply decision_counts in D. destruct D as (_ & _ & _ & Dp & Dr & _).
      change (BeginTransaction qr :: map UnitOfWorkOp ops ++ d)
        with ([BeginTransaction qr] ++ map UnitOfWorkOp ops ++ d).
      split; count_effects; assumption.
Qed.

(** C6: with [useSingleDatabaseConnection] and [isReleased] both true, a
    subscription to the stream of [query] or of [transaction] fails at
    once with [EntityManagerAlreadyReleasedError] and leaves the world as
    it was, so [provide()] is never called. With
    [useSingleDatabaseConnection] false the guard passes whatever
    [isReleased] holds, and the activation goes on to call [provide()]. *)
Theorem released_manager_is_refused (c : Call Env) w :
  (useSingleDatabaseConnection (this (heap w)) = true ->
   isReleased (this (heap w)) = true ->
   subscribe (stream_of X c) w = ([Error EntityManagerAlreadyReleasedError], w)) /\
  (useSingleDatabaseConnection (this (heap w)) = false ->
   released_guard w = (Returns tt, w) /\
   exists h t,
     snd (subscribe (stream_of X c) w) = after w h (Provide (provider_at w) :: t)).
Proof.
  split.
  - intros S R. rewrite subscribe_runs_thunk, thunk_refused; [reflexivity|].
    unfold refused. rewrite S, R. reflexivity.
  - intros S.
    assert (G : refused w = false) by (unfold refused; rewrite S; reflexivity).
    split.
    + unfold released_guard, read_this, bind, ret, throw. rewrite S. reflexivity.
    + rewrite subscribe_runs_thunk.
      destruct (provide X (provider_at w) (heap w)) as [[qr|e] h1] eqn:P.
      * destruct (thunk_acquired c w qr h1 G P) as (r & h & mid & E & _).
        rewrite E. cbn. eexists _, _. reflexivity.
      * rewrite (thunk_not_acquired c w e h1 G P). cbn. eexists _, _. reflexivity.
Qed.

(** C10: when the guard lets an activation of [query] or [transaction]
    through and [provide()] rejects with [e], the only effect is that one
    [provide()] call: no [release()], no [beginTransaction()],
    [commitTransaction()] or [rollbackTransaction()]; the heap, and with
    it the manager object, is exactly as the rejected [provide()] left it
    (the activation writes no field of the manager); and the stream fails
    with [e] itself. *)
Theorem failed_acquisition_releases_nothing (c : Call Env) w e h1 :
  refused w = false ->
  provide X (provider_at w) (heap w) = (Throws e, h1) ->
  let t := [Provide (provider_at w)] in
  subscribe (stream_of X c) w = ([Error e], after w h1 t) /\
  count is_release t = 0 /\
  count is_begin t = 0 /\ count is_commit t = 0 /\ count is_rollback t = 0 /\
  heap (after w h1 t) = h1 /\
  (this h1 = this (heap w) -> this (heap (after w h1 t)) = this (heap w)).
Proof.
  intros G P t.
  rewrite subscribe_runs_thunk, (thunk_not_acquired c w e h1 G P).
  cbn. repeat split. intros K. exact K.
Qed.

(** C5, as amended: every subscription to the stream of [query] or of
    [transaction] that passes the released-manager guard and whose
    [provide()] resolves with a runner makes exactly one [provide()] call
    and exactly one [release()] call, for that provider and that runner,
    whatever the query, the unit of work and the transaction calls settle
    with and whatever they do to the manager's flags meanwhile; the
    [release()] is the last effect, so it has settled before the stream
    delivers anything. *)
Theorem acquisition_is_released_once (c : Call Env) w qr h1 :
  refused w = false ->
  provide X (provider_at w) (heap w) = (Returns qr, h1) ->
  exists r h mid,
    let t := Provide (provider_at w) :: mid ++ [Release (provider_at w) qr] in
    subscribe (stream_of X c) w = (notifications r, after w h t) /\
    count is_provide t = 1 /\
    count is_release t = 1 /\
    count is_provide mid = 0 /\ count is_release mid = 0.
Proof.
  intros G P.
  destruct (thunk_acquired c w qr h1 G P) as (r & h & mid & E & Mp & Mr).
  exists r, h, mid. cbn zeta.
  rewrite subscribe_runs_thunk, E. cbn [fst snd].
  split; [reflexivity|].
  change (Provide (provider_at w) :: mid ++ [Release (provider_at w) qr])
    with ([Provide (provider_at w)] ++ mid ++ [Release (provider_at w) qr]).
  repeat split; try assumption; count_effects; lia.
Qed.

(** C4, as amended: in every subscription to the stream of
    [transaction] that got a runner, whatever [beginTransaction()], the
    unit of work, [commitTransaction()], [rollbackTransaction()] and
    [release()] settle with, at least one of commit and rollback is
    called and each at most once; the calls are a commit alone, a
    rollback alone, or a commit followed by a rollback (the commit having
    been rejected), and whenever the stream delivers a value they are a
    commit alone; [release()] is called exactly once, after them, as the
    last effect. *)
Theorem transaction_decides_then_releases fn w qr h1 :
  refused w = false ->
  provide X (provider_at w) (heap w) = (Returns qr, h1) ->
  exists r h before d,
    let t := before ++ d ++ [Release (provider_at w) qr] in
    subscribe (stream_of X (TransactionCall fn)) w = (notifications r, after w h t) /\
    decision qr d /\
    count is_commit before = 0 /\ count is_rollback before = 0 /\
    count is_release before = 0 /\
    count is_commit t <= 1 /\ count is_rollback t <= 1 /\
    1 <= count is_commit t + count is_rollback t /\
    count is_release t = 1 /\
    (forall v, r = Returns v -> d = [CommitTransaction qr]) /\
    (d = [CommitTransaction qr] ->
     exists h3 u h4, commitTransaction X qr h3 = (Returns u, h4)) /\
    (d = [CommitTransaction qr; RollbackTransaction qr] ->
     exists h3 e h4, commitTransaction X qr h3 = (Throws e, h4)).
Proof.
  intros G P.
  destruct (transaction_shape fn w qr h1 G P)
    as (r & h & ops & d & E & D & V & Vc & Vcr).
  exists r, h, ([Provide (provider_at w); BeginTransaction qr] ++ map UnitOfWorkOp ops), d.
  cbn zeta. rewrite subscribe_runs_thunk. cbn [thunk_of]. rewrite E. cbn [fst snd].
  split; [rewrite <- app_assoc; reflexivity|].
  split; [exact D|].
  pose proof (decision_counts qr d D) as (Dc & Db & Dcb & _ & Dr & _).
  repeat split; try exact V; try exact Vc; try exact Vcr; count_effects; lia.
Qed.

(** C3, as amended: when the guard passes, [provide()] and
    [beginTransaction()] resolve, the unit of work resolves with [v]
    after operations [ops] of its own, and [commitTransaction()] and
    [release()] resolve, the effects of the subscription are, in order,
    provide, beginTransaction, [ops], commitTransaction, release (one
    commit, no rollback) and the stream delivers [v] and completes. *)
Theorem transaction_commits_resolved_unit_of_work fn w qr h1 h2 v h3 ops h4 h5 :
  refused w = false ->
  provide X (provider_at w) (heap w) = (Returns qr, h1) ->
  beginTransaction X qr h1 = (Returns tt, h2) ->
  fn h2 = (Returns v, h3, ops) ->
  commitTransaction X qr h3 = (Returns tt, h4) ->
  release X (provider_at w) qr h4 = (Returns tt, h5) ->
  let t := [Provide (provider_at w); BeginTransaction qr] ++ map UnitOfWorkOp ops
           ++ [CommitTransaction qr] ++ [Release (provider_at w) qr] in
  subscribe (stream_of X (TransactionCall fn)) w = ([Next v; Complete], after w h5 t) /\
  count is_commit t = 1 /\ count is_rollback t = 0 /\ count is_release t = 1.
Proof.
  intros G P B F C R t.
  rewrite subscribe_runs_thunk. cbn [thunk_of].
  rewrite (transaction_committed fn w qr h1 tt h2 v h3 ops tt h4 _ h5 G P B F C R).
  cbn [fst snd finally_after notifications].
  split; [reflexivity|].
  subst t. repeat split; count_effects; reflexivity.
Qed.

(** C2, as amended: when the guard passes, [provide()] and
    [beginTransaction()] resolve and the unit of work rejects with [e],
    the subscription calls [rollbackTransaction()] exactly once and
    [commitTransaction()] never, then [release()]; and if both the
    rollback and the release resolve, the stream fails with [e]. *)
Theorem transaction_rolls_back_rejected_unit_of_work fn w qr h1 h2 e h3 ops r4 h4 r5 h5 :
  refused w = false ->
  provide X (provider_at w) (heap w) = (Returns qr, h1) ->
  beginTransaction X qr h1 = (Returns tt, h2) ->
  fn h2 = (Throws e, h3, ops) ->
  rollbackTransaction X qr h3 = (r4, h4) ->
  release X (provider_at w) qr h4 = (r5, h5) ->
  let t := [Provide (provider_at w); BeginTransaction qr] ++ map UnitOfWorkOp ops
           ++ [RollbackTransaction qr] ++ [Release (provider_at w) qr] in
  snd (subscribe (stream_of X (TransactionCall fn)) w) = after w h5 t /\
  count is_rollback t = 1 /\ count is_commit t = 0 /\
  (r4 = Returns tt -> r5 = Returns tt ->
   fst (subscribe (stream_of X (TransactionCall fn)) w) = [Error e]).
Proof.
  intros G P B F RB R t.
  rewrite subscribe_runs_thunk. cbn [thunk_of].
  rewrite (transaction_unit_rejected fn w qr h1 tt h2 e h3 ops r4 h4 r5 h5 G P B F RB R).
  cbn [fst snd].
  split; [reflexivity|].
  subst t. repeat split; try (count_effects; reflexivity).
  intros -> ->. reflexivity.
Qed.

Lemma thunk_proceeds (c : Call Env) w :
  refused w = false ->
  exists r h t, thunk_of X c w = (r, after w h (Provide (provider_at w) :: t)).
Proof.
  intros G.
  destruct (provide X (provider_at w) (heap w)) as [[qr|e] h1] eqn:P.
  - destruct (thunk_acquired c w qr h1 G P) as (r & h & mid & E & _).
    eexists _, _, _. exact E.
  - eexists _, _, _. eapply thunk_not_acquired; eassumption.
Qed.

(** The effects of one activation of the stream of [query]. *)
Lemma query_effects sql w :
  exists t,
    trace (snd (query_promiseFn X sql w)) = trace w ++ t /\
    query_cycle sql t /\
    (acquires X w -> count is_provide t = 1 /\ count is_release t = 1).
Proof.
  destruct (refused w) eqn:G.
  - exists []. rewrite (query_refused sql w G). cbn. rewrite app_nil_r.
    split; [reflexivity|]. split; [constructor|].
    intros [G' _]. congruence.
  - destruct (provide X (provider_at w) (heap w)) as [[qr|e] h1] eqn:P.
    + destruct (query_shape sql w qr h1 G P) as (r & h & E).
      eexists. rewrite E. cbn. split; [reflexivity|]. split; [constructor|].
      intros _. split; reflexivity.
    + eexists. rewrite (query_not_acquired sql w e h1 G P). cbn.
      split; [reflexivity|]. split; [constructor|].
      intros (_ & qr & h & P'). congruence.
Qed.


(** *** The activations never write the manager *)

Lemma preserves_ret {A} (a : A) : preserves_manager (Env:=Env) (ret a).
Proof. intros w. reflexivity. Qed.

Lemma preserves_throw {A} e : preserves_manager (Env:=Env) (A:=A) (throw e).
Proof. intros w. reflexivity. Qed.

Lemma preserves_bind {A B} (c : Js (World Env) A) (k : A -> Js (World Env) B) :
  preserves_manager c -> (forall a, preserves_manager (k a)) ->
  preserves_manager (bind c k).
Proof.
  intros Hc Hk w. unfold bind. specialize (Hc w).
  destruct (c w) as [[a|e] w1]; cbn in *; [rewrite Hk|]; exact Hc.
Qed.

Lemma preserves_try_catch {A} (body : Js (World Env) A) handler :
  preserves_manager body -> (forall e, preserves_manager (handler e)) ->
  preserves_manager (try_catch body handler).
Proof.
  intros Hb Hh w. unfold try_catch. specialize (Hb w).
  destruct (body w) as [[a|e] w1]; cbn in *; [|rewrite Hh]; exact Hb.
Qed.

Lemma preserves_try_finally {A} (body : Js (World Env) A) cleanup :
  preserves_manager body -> preserves_manager cleanup ->
  preserves_manager (try_finally body cleanup).
Proof.
  intros Hb Hc w. unfold try_finally. specialize (Hb w).
  destruct (body w) as [r w1]. specialize (Hc w1).
  destruct (cleanup w1) as [[u|e] w2]; cbn in *; congruence.
Qed.

Lemma preserves_await {A} eff (c : External Env A) :
  keeps_manager c -> preserves_manager (await eff c).
Proof.
  intros K w. unfold await. specialize (K (heap w)).
  destruct (c (heap w)) as [r h]. exact K.
Qed.

Lemma preserves_await_unit_of_work fn :
  unit_of_work_keeps_manager fn -> preserves_manager (await_unit_of_work fn).
Proof.
  intros K w. unfold await_unit_of_work. specialize (K (heap w)).
  destruct (fn (heap w)) as [[r h] ops]. exact K.
Qed.

Lemma preserves_released_guard : preserves_manager (@released_guard Env).
Proof.
  intros w. unfold released_guard, read_this, bind, ret, throw.
  destruct (_ && _); reflexivity.
Qed.

Lemma preserves_provider_or_new : preserves_manager (@provider_or_new Env).
Proof.
  intros w. unfold provider_or_new, read_this, new_QueryRunnerProvider, bind, ret.
  destruct (queryRunnerProvider _); reflexivity.
Qed.

Lemma thunk_preserves_manager (c : Call Env) :
  collaborators_keep_manager X -> call_keeps_manager c ->
  preserves_manager (thunk_of X c).
Proof.
  intros (Kp & Kr & Kq & Kb & Kc & Krb) Kfn.
  destruct c as [sql|fn]; cbn [thunk_of call_keeps_manager] in *;
    unfold query_promiseFn, transaction_promiseFn;
    repeat first
      [ apply preserves_released_guard
      | apply preserves_provider_or_new
      | apply preserves_bind; [|intros ?]
      | apply preserves_try_finally
      | apply preserves_try_catch; [|intros ?]
      | apply preserves_await; solve [auto]
      | apply preserves_await_unit_of_work; assumption
      | apply preserves_ret
      | apply preserves_throw ].
Qed.

(** C9, as amended: in two successive subscriptions to streams of
    [query] or [transaction] on a manager that is not refused, with
    collaborators and a unit of work that leave the manager object alone,
    neither activation writes a field of the manager, and each calls
    [provide()] on the provider the [queryRunnerProvider] field holds, or,
    when the field is unset, on a provider it constructs for itself and
    stores nowhere. So with the field set to [p] both activations use [p]
    and construct nothing, and with the field unset they construct and
    use two different providers, whatever [useSingleDatabaseConnection]
    is. *)
Theorem provider_comes_from_the_field (a b : Call Env) w :
  collaborators_keep_manager X ->
  call_keeps_manager a -> call_keeps_manager b ->
  refused w = false ->
  let w1 := snd (subscribe (stream_of X a) w) in
  let w2 := snd (subscribe (stream_of X b) w1) in
  (exists t1 t2,
     trace w1 = trace w ++ Provide (provider_at w) :: t1 /\
     trace w2 = trace w1 ++ Provide (provider_at w1) :: t2) /\
  this (heap w1) = this (heap w) /\
  this (heap w2) = this (heap w) /\
  (forall p, queryRunnerProvider (this (heap w)) = Some p ->
     provider_at w = p /\ provider_at w1 = p /\ constructed w2 = constructed w) /\
  (queryRunnerProvider (this (heap w)) = None ->
     provider_at w = constructed w /\
     provider_at w1 = S (constructed w) /\
     constructed w2 = S (S (constructed w))).
Proof.
  intros KX Ka Kb G w1 w2.
  assert (M1 : this (heap w1) = this (heap w)).
  { subst w1. rewrite subscribe_runs_thunk. apply thunk_preserves_manager; assumption. }
  assert (M2 : this (heap w2) = this (heap w)).
  { rewrite <- M1. subst w2. rewrite subscribe_runs_thunk.
    apply thunk_preserves_manager; assumption. }
  assert (G1 : refused w1 = false).
  { unfold refused in *. rewrite M1. exact G. }
  destruct (thunk_proceeds a w G) as (r1 & h1 & t1 & E1).
  destruct (thunk_proceeds b w1 G1) as (r2 & h2 & t2 & E2).
  assert (W1 : w1 = after w h1 (Provide (provider_at w) :: t1)).
  { subst w1. rewrite subscribe_runs_thunk, E1. reflexivity. }
  assert (W2 : w2 = after w1 h2 (Provide (provider_at w1) :: t2)).
  { subst w2. rewrite subscribe_runs_thunk, E2. reflexivity. }
  assert (N1 : constructed w1 = constructed_at w) by (rewrite W1; reflexivity).
  assert (N2 : constructed w2 = constructed_at w1) by (rewrite W2; reflexivity).
  split.
  { exists t1, t2. split; [rewrite W1|rewrite W2]; reflexivity. }
  split; [exact M1|]. split; [exact M2|].
  split.
  - intros p F. rewrite N2. unfold provider_at, constructed_at in *.
    rewrite M1, F in *. auto.
  - intros F. rewrite N2. unfold provider_at, constructed_at in *.
    rewrite M1, F in *. rewrite N1. auto.
Qed.

End Lifecycle.

(** ** Entity dispatch *)

Section DispatchProperties.

Variable Stream : Type.
Variable getReactiveRepository : JsValue -> Completion (ReactiveRepository Stream).

(** C7: called with the entity [e] alone, [persist] and [remove] resolve
    the repository from the constructor [c] of [e]. Called with a target
    [t] and [e], they resolve it from [t] and from nothing else: [t] need
    not be the class of [e], and neither the constructor of [e] nor a
    repository for it is asked for ([e] may even be [undefined]). Either
    way the entity handed to the repository is [e] and the stream the
    repository returns is returned as it is. *)
Theorem persist_remove_resolve_target (e t : JsValue) :
  (forall c rc,
     constructor_of e = Returns c ->
     getReactiveRepository c = Returns rc ->
     persist getReactiveRepository [e] = Returns (repo_persist rc e) /\
     remove getReactiveRepository [e] = Returns (repo_remove rc e)) /\
  (forall rt,
     getReactiveRepository t = Returns rt ->
     persist getReactiveRepository [t; e] = Returns (repo_persist rt e) /\
     remove getReactiveRepository [t; e] = Returns (repo_remove rt e)).
Proof.
  split.
  - intros c rc C Rc.
    unfold persist, remove, target_of, entity_of; cbn.
    rewrite C; cbn. rewrite Rc; cbn. split; reflexivity.
  - intros rt Rt.
    unfold persist, remove, target_of, entity_of; cbn.
    rewrite Rt; cbn. split; reflexivity.
Qed.

(** C8, as amended: [find], [findAndCount] and [findOne] test their two
    optional arguments for truthiness (every object is truthy, an omitted
    argument is [undefined] and falsy). When both are truthy both are
    forwarded, in order and unchanged; when the first is truthy and the
    second is not, the first alone is forwarded; when the first is not
    truthy the repository method is called with no argument, also when
    the second argument is present. *)
Theorem find_family_dispatch (tag c o : JsValue) repo :
  getReactiveRepository tag = Returns repo ->
  (truthy c = true -> truthy o = true ->
   find getReactiveRepository tag c o = Returns (repo_find repo [c; o]) /\
   findAndCount getReactiveRepository tag c o = Returns (repo_findAndCount repo [c; o]) /\
   findOne getReactiveRepository tag c o = Returns (repo_findOne repo [c; o])) /\
  (truthy c = true -> truthy o = false ->
   find getReactiveRepository tag c o = Returns (repo_find repo [c]) /\
   findAndCount getReactiveRepository tag c o = Returns (repo_findAndCount repo [c]) /\
   findOne getReactiveRepository tag c o = Returns (repo_findOne repo [c])) /\
  (truthy c = false ->
   find getReactiveRepository tag c o = Returns (repo_find repo []) /\
   findAndCount getReactiveRepository tag c o = Returns (repo_findAndCount repo []) /\
   findOne getReactiveRepository tag c o = Returns (repo_findOne repo [])).
Proof.
  intros R.
  unfold find, findAndCount, findOne, dispatch_find.
  repeat split; intros; rewrite ?H, ?H0, R; cbn; reflexivity.
Qed.

End DispatchProperties.

(** * Concrete runs *)

Import Scenario.

Lemma scripted_keeps_manager s : collaborators_keep_manager (scripted s).
Proof.
  unfold collaborators_keep_manager, keeps_manager, scripted, settle; cbn.
  repeat split; intros;
    match goal with |- context [if ?b then _ else _] => destruct b end;
    reflexivity.
Defined.

(** ** Entity dispatch *)

(** An entity of class [User] persisted alone goes to the repository of
    [User]; persisted under the target [Post] it goes to the repository of
    [Post], also when [Post] is the only target that has a repository, and
    also when the entity is [undefined]. *)
Lemma persist_remove_resolve_target_witness :
  JsFunction "Post" <> JsFunction "User" /\
  only_repository (JsFunction "Post") (JsFunction "User") =
    Throws (Thrown (JsString "no repository")) /\
  (persist recording_resolver [JsObject "User" 1] =
     Returns {| call_target := JsFunction "User"; call_method := "persist";
                call_args := [JsObject "User" 1] |} /\
   remove recording_resolver [JsObject "User" 1] =
     Returns {| call_target := JsFunction "User"; call_method := "remove";
                call_args := [JsObject "User" 1] |}) /\
  (persist (only_repository (JsFunction "Post")) [JsFunction "Post"; JsObject "User" 1] =
     Returns {| call_target := JsFunction "Post"; call_method := "persist";
                call_args := [JsObject "User" 1] |} /\
   remove (only_repository (JsFunction "Post")) [JsFunction "Post"; JsObject "User" 1] =
     Returns {| call_target := JsFunction "Post"; call_method := "remove";
                call_args := [JsObject "User" 1] |}) /\
  (persist recording_resolver [JsFunction "Post"; JsUndefined] =
     Returns {| call_target := JsFunction "Post"; call_method := "persist";
                call_args := [JsUndefined] |} /\
   remove recording_resolver [JsFunction "Post"; JsUndefined] =
     Returns {| call_target := JsFunction "Post"; call_method := "remove";
                call_args := [JsUndefined] |}).
Proof.
  split; [discriminate|].
  split; [reflexivity|].
  split; [|split].
  - exact (proj1 (persist_remove_resolve_target RepositoryCall recording_resolver
                    (JsObject "User" 1) (JsFunction "Post"))
             (JsFunction "User") (recording_repository (JsFunction "User"))
             eq_refl eq_refl).
  - exact (proj2 (persist_remove_resolve_target RepositoryCall
                    (only_repository (JsFunction "Post"))
                    (JsObject "User" 1) (JsFunction "Post"))
             (recording_repository (JsFunction "Post")) eq_refl).
  - exact (proj2 (persist_remove_resolve_target RepositoryCall recording_resolver
                    JsUndefined (JsFunction "Post"))
             (recording_repository (JsFunction "Post")) eq_refl).
Defined.

(** [find(Post, undefined, options)]: exactly one optional argument is
    present, and it is not forwarded: the repository's [find] is called
    with no argument. *)
Lemma find_drops_lone_options :
  find recording_resolver (JsFunction "Post") JsUndefined (JsObject "Object" 1) =
    Returns {| call_target := JsFunction "Post"; call_method := "find"; call_args := [] |} /\
  find recording_resolver (JsFunction "Post") JsUndefined (JsObject "Object" 1) <>
    Returns {| call_target := JsFunction "Post"; call_method := "find";
               call_args := [JsObject "Object" 1] |}.
Proof. split; [reflexivity | discriminate]. Qed.

Lemma find_family_dispatch_witness :
  (find recording_resolver (JsFunction "Post") (JsObject "Object" 1) (JsObject "Object" 2) =
     Returns {| call_target := JsFunction "Post"; call_method := "find";
                call_args := [JsObject "Object" 1; JsObject "Object" 2] |}) /\
  (findOne recording_resolver (JsFunction "Post") (JsObject "Object" 1) JsUndefined =
     Returns {| call_target := JsFunction "Post"; call_method := "findOne";
                call_args := [JsObject "Object" 1] |}) /\
  (findAndCount recording_resolver (JsFunction "Post") JsUndefined (JsObject "Object" 2) =
     Returns {| call_target := JsFunction "Post"; call_method := "findAndCount";
                call_args := [] |}).
Proof.
  pose (D := fun c o =>
          find_family_dispatch RepositoryCall recording_resolver (JsFunction "Post") c o
            (recording_repository (JsFunction "Post")) eq_refl).
  split; [|split].
  - exact (proj1 (proj1 (D (JsObject "Object" 1) (JsObject "Object" 2)) eq_refl eq_refl)).
  - exact (proj2 (proj2 (proj1 (proj2 (D (JsObject "Object" 1) JsUndefined))
                           eq_refl eq_refl))).
  - exact (proj1 (proj2 (proj2 (proj2 (D JsUndefined (JsObject "Object" 2))) eq_refl))).
Defined.

(** ** Raw queries *)


(** A released single-connection manager refuses; a per-call manager with
    the flag set goes on to [provide()]. *)
Lemma released_manager_is_refused_witness :
  subscribe (stream_of (scripted all_resolve) (QueryCall "SELECT 1")) single_released =
    ([Error EntityManagerAlreadyReleasedError], single_released) /\
  subscribe (stream_of (scripted all_resolve) (TransactionCall persist_then_42))
    single_released =
    ([Error EntityManagerAlreadyReleasedError], single_released) /\
  exists h t,
    snd (subscribe (stream_of (scripted all_resolve) (QueryCall "SELECT 1"))
           per_call_released) =
      after per_call_released h (Provide (provider_at per_call_released) :: t).
Proof.
  split; [|split].
  - exact (proj1 (released_manager_is_refused nat (scripted all_resolve)
                    (QueryCall "SELECT 1") single_released) eq_refl eq_refl).
  - exact (proj1 (released_manager_is_refused nat (scripted all_resolve)
                    (TransactionCall persist_then_42) single_released) eq_refl eq_refl).
  - exact (proj2 (proj2 (released_manager_is_refused nat (scripted all_resolve)
                           (QueryCall "SELECT 1") per_call_released) eq_refl)).
Defined.

(** [provide()] rejects: one [provide()] call, no [release()]. *)
Lemma provide_rejection_has_no_release :
  refused per_call = false /\
  fst (subscribe (stream_of (scripted provide_fails) (QueryCall "SELECT 1")) per_call) =
    [Error (failure "provide")] /\
  trace (snd (subscribe (stream_of (scripted provide_fails) (QueryCall "SELECT 1"))
                per_call)) = [Provide 0] /\
  count is_provide
    (trace (snd (subscribe (stream_of (scripted provide_fails) (QueryCall "SELECT 1"))
                   per_call))) = 1 /\
  count is_release
    (trace (snd (subscribe (stream_of (scripted provide_fails) (QueryCall "SELECT 1"))
                   per_call))) = 0.
Proof. repeat split. Qed.

Lemma failed_acquisition_releases_nothing_witness :
  subscribe (stream_of (scripted provide_fails) (TransactionCall persist_then_42)) single =
    ([Error (failure "provide")], after single (heap single) [Provide 5]) /\
  this (heap (after single (heap single) [Provide 5])) = this (heap single).
Proof.
  pose proof (failed_acquisition_releases_nothing nat (scripted provide_fails)
                (TransactionCall persist_then_42) single (failure "provide") (heap single)
                eq_refl eq_refl) as (S & _ & _ & _ & _ & _ & M).
  split; [exact S | exact (M eq_refl)].
Defined.

(** The unit of work disposes the single-connection manager while the
    transaction is running; the runner is released all the same. *)
Lemma acquisition_is_released_once_witness :
  exists r h mid,
    let t := Provide 5 :: mid ++ [Release 5 105] in
    subscribe (stream_of (scripted all_resolve) (TransactionCall dispose_then_42)) single =
      (notifications r, after single h t) /\
    isReleased (this h) = true /\
    count is_provide t = 1 /\ count is_release t = 1.
Proof.
  destruct (acquisition_is_released_once nat (scripted all_resolve)
              (TransactionCall dispose_then_42) single 105 (heap single)
              eq_refl eq_refl) as (r & h & mid & S & P & R & _).
  exists r, h, mid. cbv zeta in *.
  split; [exact S|]. split; [|split; assumption].
  change (provider_at single) with 5 in S.
  assert (E : heap (snd (subscribe (stream_of (scripted all_resolve)
                                      (TransactionCall dispose_then_42)) single)) = h)
    by (rewrite S; reflexivity).
  rewrite <- E. reflexivity.
Defined.

(** ** Transactions *)

(** The unit of work resolves with 42 and [commitTransaction()] rejects:
    the rollback is called after the commit and the stream fails. When it
    is [release()] that rejects, the commit stands and the stream fails
    all the same. *)
Lemma commit_rejection_triggers_rollback :
  persist_then_42 (heap per_call) = (Returns (JsNumber 42), heap per_call, ["persist(x)"]) /\
  subscribe (stream_of (scripted commit_fails) (TransactionCall persist_then_42)) per_call =
    ([Error (failure "commit")],
     after per_call (heap per_call)
       [Provide 0; BeginTransaction 100; UnitOfWorkOp "persist(x)";
        CommitTransaction 100; RollbackTransaction 100; Release 0 100]) /\
  subscribe (stream_of (scripted release_fails) (TransactionCall persist_then_42)) per_call =
    ([Error (failure "release")],
     after per_call (heap per_call)
       [Provide 0; BeginTransaction 100; UnitOfWorkOp "persist(x)";
        CommitTransaction 100; Release 0 100]).
Proof. repeat split. Qed.

Lemma transaction_commits_resolved_unit_of_work_witness :
  subscribe (stream_of (scripted all_resolve) (TransactionCall persist_then_42)) single =
    ([Next (JsNumber 42); Complete],
     after single (heap single)
       [Provide 5; BeginTransaction 105; UnitOfWorkOp "persist(x)";
        CommitTransaction 105; Release 5 105]).
Proof.
  exact (proj1 (transaction_commits_resolved_unit_of_work nat (scripted all_resolve)
                  persist_then_42 single 105 (heap single) (heap single) (JsNumber 42)
                  (heap single) ["persist(x)"] (heap single) (heap single)
                  eq_refl eq_refl eq_refl eq_refl eq_refl eq_refl)).
Defined.

(** The unit of work rejects with "boom" and [rollbackTransaction()]
    rejects too: the stream fails with the rollback's error. When it is
    [release()] that rejects, the stream fails with the release's error. *)
Lemma rollback_rejection_replaces_the_error :
  persist_then_throw (heap per_call) =
    (Throws (failure "boom"), heap per_call, ["persist(x)"]) /\
  fst (subscribe (stream_of (scripted rollback_fails) (TransactionCall persist_then_throw))
         per_call) = [Error (failure "rollback")] /\
  [Error (failure "rollback")] <> [Error (failure "boom")] /\
  fst (subscribe (stream_of (scripted release_fails) (TransactionCall persist_then_throw))
         per_call) = [Error (failure "release")] /\
  [Error (failure "release")] <> [Error (failure "boom")].
Proof. repeat split; discriminate. Qed.

Lemma transaction_rolls_back_rejected_unit_of_work_witness :
  subscribe (stream_of (scripted all_resolve) (TransactionCall persist_then_throw)) per_call =
    ([Error (failure "boom")],
     after per_call (heap per_call)
       [Provide 0; BeginTransaction 100; UnitOfWorkOp "persist(x)";
        RollbackTransaction 100; Release 0 100]).
Proof.
  destruct (transaction_rolls_back_rejected_unit_of_work nat (scripted all_resolve)
              persist_then_throw per_call 100 (heap per_call) (heap per_call)
              (failure "boom") (heap per_call) ["persist(x)"]
              (Returns tt) (heap per_call) (Returns tt) (heap per_call)
              eq_refl eq_refl eq_refl eq_refl eq_refl eq_refl) as (W & _ & _ & N).
  rewrite (surjective_pairing (subscribe _ _)), W, (N eq_refl eq_refl).
  reflexivity.
Defined.

(** With a rejected commit both calls are made; with a rejected
    [provide()], or a refused subscription, neither is made and nothing
    is released. *)
Lemma commit_and_rollback_both_called :
  (count is_commit
     (trace (snd (subscribe (stream_of (scripted commit_fails)
                               (TransactionCall persist_then_42)) single))) = 1 /\
   count is_rollback
     (trace (snd (subscribe (stream_of (scripted commit_fails)
                               (TransactionCall persist_then_42)) single))) = 1) /\
  (count is_commit
     (trace (snd (subscribe (stream_of (scripted all_resolve)
                               (TransactionCall persist_then_42)) single_released))) = 0 /\
   count is_rollback
     (trace (snd (subscribe (stream_of (scripted all_resolve)
                               (TransactionCall persist_then_42)) single_released))) = 0 /\
   count is_release
     (trace (snd (subscribe (stream_of (scripted all_resolve)
                               (TransactionCall persist_then_42)) single_released))) = 0).
Proof. repeat split. Qed.

Lemma transaction_decides_then_releases_witness :
  exists r h before d,
    subscribe (stream_of (scripted commit_fails) (TransactionCall persist_then_42)) single =
      (notifications r, after single h (before ++ d ++ [Release 5 105])) /\
    decision 105 d /\
    count is_release (before ++ d ++ [Release 5 105]) = 1.
Proof.
  destruct (transaction_decides_then_releases nat (scripted commit_fails)
              persist_then_42 single 105 (heap single) eq_refl eq_refl)
    as (r & h & before & d & S & D & _ & _ & _ & _ & _ & _ & R & _).
  exists r, h, before, d. auto.
Defined.

(** ** The provider an activation works with *)

(** A single-connection manager whose provider field is unset: each of
    two subscriptions constructs a provider for itself (0, then 1) and the
    field is still unset afterwards. *)
Lemma unset_field_is_never_filled :
  useSingleDatabaseConnection (this (heap single_unset)) = true /\
  trace (snd (subscribe select_1 (snd (subscribe select_1 single_unset)))) =
    [Provide 0; RunQuery 100 "SELECT 1"; Release 0 100;
     Provide 1; RunQuery 101 "SELECT 1"; Release 1 101] /\
  queryRunnerProvider
    (this (heap (snd (subscribe select_1 (snd (subscribe select_1 single_unset)))))) = None /\
  constructed (snd (subscribe select_1 (snd (subscribe select_1 single_unset)))) = 2.
Proof. repeat split. Qed.

Lemma provider_comes_from_the_field_witness :
  (provider_at single = 5 /\
   provider_at (snd (subscribe select_1 single)) = 5 /\
   constructed (snd (subscribe (stream_of (scripted all_resolve)
                                  (TransactionCall persist_then_42))
                       (snd (subscribe select_1 single)))) = constructed single) /\
  (provider_at per_call = 0 /\
   provider_at (snd (subscribe select_1 per_call)) = 1 /\
   constructed (snd (subscribe (stream_of (scripted all_resolve)
                                  (TransactionCall persist_then_42))
                       (snd (subscribe select_1 per_call)))) = 2).
Proof.
  assert (K : unit_of_work_keeps_manager persist_then_42) by (intros h; reflexivity).
  split.
  - exact (proj1 (proj2 (proj2 (proj2
             (provider_comes_from_the_field nat (scripted all_resolve)
                (QueryCall "SELECT 1") (TransactionCall persist_then_42) single
                (scripted_keeps_manager all_resolve) I K eq_refl)))) 5 eq_refl).
  - exact (proj2 (proj2 (proj2 (proj2
             (provider_comes_from_the_field nat (scripted all_resolve)
                (QueryCall "SELECT 1") (TransactionCall persist_then_42) per_call
                (scripted_keeps_manager all_resolve) I K eq_refl)))) eq_refl).
Defined.

(** * Further properties of the entity dispatch *)

Section DispatchEdges.

Variable Stream : Type.
Variable getReactiveRepository : JsValue -> Completion (ReactiveRepository Stream).

Lemma not_two_arguments (arguments : list JsValue) :
  List.length arguments <> 2 -> (List.length arguments =? 2) = false.
Proof. intros N. apply Nat.eqb_neq. exact N. Qed.

(** X1: called with any number of arguments other than two, [persist] and
    [remove] take the first argument (or [undefined] when there is none)
    as the entity and its constructor as the target; every further
    argument is ignored. *)
Theorem persist_remove_entity_is_first_argument (arguments : list JsValue) :
  List.length arguments <> 2 ->
  let entity := nth 0 arguments JsUndefined in
  persist getReactiveRepository arguments =
    bindC (constructor_of entity) (fun target =>
    bindC (getReactiveRepository target) (fun repo =>
    Returns (repo_persist repo entity))) /\
  remove getReactiveRepository arguments =
    bindC (constructor_of entity) (fun target =>
    bindC (getReactiveRepository target) (fun repo =>
    Returns (repo_remove repo entity))).
Proof.
  intros N entity.
  unfold persist, remove, target_of, entity_of.
  rewrite (not_two_arguments arguments N).
  split; reflexivity.
Qed.

(** X2: [persist] and [remove] called without an entity (no argument, or
    a first argument that is [undefined], in a call that does not have
    exactly two arguments) throw a [TypeError], whatever the resolver
    would answer. *)
Theorem persist_remove_without_entity_throw (arguments : list JsValue) :
  List.length arguments <> 2 ->
  nth 0 arguments JsUndefined = JsUndefined ->
  persist getReactiveRepository arguments = Throws TypeError /\
  remove getReactiveRepository arguments = Throws TypeError.
Proof.
  intros N U.
  unfold persist, remove, target_of.
  rewrite (not_two_arguments arguments N), U.
  split; reflexivity.
Qed.

(** X3: when the resolver throws [e] for a target, every operation that
    is dispatched to that target throws [e] itself: the find family and
    [findOneById] whatever their other arguments are, [persist] and
    [remove] called with that target, and [persist] and [remove] called
    with an entity alone whose constructor is that target. *)
Theorem resolver_failure_is_thrown (tag : JsValue) (e : JsError) :
  getReactiveRepository tag = Throws e ->
  forall a b,
    find getReactiveRepository tag a b = Throws e /\
    findAndCount getReactiveRepository tag a b = Throws e /\
    findOne getReactiveRepository tag a b = Throws e /\
    findOneById getReactiveRepository tag a b = Throws e /\
    persist getReactiveRepository [tag; a] = Throws e /\
    remove getReactiveRepository [tag; a] = Throws e /\
    (constructor_of a = Returns tag ->
     persist getReactiveRepository [a] = Throws e /\
     remove getReactiveRepository [a] = Throws e).
Proof.
  intros R a b.
  assert (F : forall method,
             dispatch_find Stream getReactiveRepository method tag a b = Throws e).
  { intros method. unfold dispatch_find.
    destruct (truthy a && truthy b); [|destruct (truthy a)]; rewrite R; reflexivity. }
  split; [apply F|]. split; [apply F|]. split; [apply F|].
  split; [unfold findOneById; rewrite R; reflexivity|].
  split; [unfold persist, target_of; cbn; rewrite R; reflexivity|].
  split; [unfold remove, target_of; cbn; rewrite R; reflexivity|].
  intros C.
  unfold persist, remove, target_of; cbn. rewrite C; cbn. rewrite R.
  split; reflexivity.
Qed.

(** X4: [find], [findAndCount] and [findOne] hand the repository the same
    argument list, which is [[]], [[c]] or [[c; o]] and never holds a
    falsy value; [findOneById] hands over the identifier and the options,
    both, whatever they are. *)
Theorem find_family_forwards_truthy_prefix (tag c o : JsValue) repo :
  getReactiveRepository tag = Returns repo ->
  (exists args,
     find getReactiveRepository tag c o = Returns (repo_find repo args) /\
     findAndCount getReactiveRepository tag c o = Returns (repo_findAndCount repo args) /\
     findOne getReactiveRepository tag c o = Returns (repo_findOne repo args) /\
     Forall (fun v => truthy v = true) args /\
     (args = [] \/ args = [c] \/ args = [c; o])) /\
  findOneById getReactiveRepository tag c o = Returns (repo_findOneById repo [c; o]).
Proof.
  intros R.
  split; [|unfold findOneById; rewrite R; reflexivity].
  unfold find, findAndCount, findOne, dispatch_find.
  destruct (truthy c) eqn:Tc; [destruct (truthy o) eqn:To|]; cbn; rewrite R; cbn.
  - exists [c; o]. repeat split; auto.
  - exists [c]. repeat split; auto.
  - exists []. repeat split; auto.
Qed.

End DispatchEdges.

Lemma persist_remove_entity_is_first_argument_witness :
  persist recording_resolver [JsObject "User" 1; JsFunction "Post"; JsObject "User" 2] =
    Returns {| call_target := JsFunction "User"; call_method := "persist";
               call_args := [JsObject "User" 1] |} /\
  remove recording_resolver [JsObject "User" 1; JsFunction "Post"; JsObject "User" 2] =
    Returns {| call_target := JsFunction "User"; call_method := "remove";
               call_args := [JsObject "User" 1] |}.
Proof.
  exact (persist_remove_entity_is_first_argument RepositoryCall recording_resolver
           [JsObject "User" 1; JsFunction "Post"; JsObject "User" 2]
           ltac:(cbn; discriminate)).
Defined.

Lemma persist_remove_without_entity_throw_witness :
  persist recording_resolver [] = Throws TypeError /\
  remove recording_resolver [] = Throws TypeError.
Proof.
  exact (persist_remove_without_entity_throw RepositoryCall recording_resolver []
           ltac:(cbn; discriminate) eq_refl).
Defined.

Lemma resolver_failure_is_thrown_witness :
  find no_repository (JsFunction "Post") (JsObject "Object" 1) JsUndefined =
    Throws (Thrown (JsString "no repository")) /\
  persist no_repository [JsObject "Post" 1] = Throws (Thrown (JsString "no repository")).
Proof.
  pose proof (resolver_failure_is_thrown RepositoryCall no_repository (JsFunction "Post")
                (Thrown (JsString "no repository")) eq_refl) as K.
  split.
  - exact (proj1 (K (JsObject "Object" 1) JsUndefined)).
  - exact (proj1 (proj2 (proj2 (proj2 (proj2 (proj2 (proj2
             (K (JsObject "Post" 1) JsUndefined)))))) eq_refl)).
Defined.

Lemma find_family_forwards_truthy_prefix_witness :
  (exists args,
     find recording_resolver (JsFunction "Post") (JsString "") (JsObject "Object" 2) =
       Returns (repo_find (recording_repository (JsFunction "Post")) args) /\
     Forall (fun v => truthy v = true) args) /\
  findOneById recording_resolver (JsFunction "Post") (JsNumber 0) JsUndefined =
    Returns {| call_target := JsFunction "Post"; call_method := "findOneById";
               call_args := [JsNumber 0; JsUndefined] |}.
Proof.
  destruct (find_family_forwards_truthy_prefix RepositoryCall recording_resolver
              (JsFunction "Post") (JsString "") (JsObject "Object" 2)
              (recording_repository (JsFunction "Post")) eq_refl)
    as ((args & F & _ & _ & T & _) & _).
  split.
  - exists args. split; assumption.
  - exact (proj2 (find_family_forwards_truthy_prefix RepositoryCall recording_resolver
                    (JsFunction "Post") (JsNumber 0) JsUndefined
                    (recording_repository (JsFunction "Post")) eq_refl)).
Defined.

(** * Further properties of raw queries and transactions *)

Section LifecycleEdges.

Variable Env : Type.
Variable X : Collaborators Env.

Implicit Types (w : World Env) (h : Heap Env) (fn : UnitOfWork Env).

(** X5: once the runner is acquired, [query] runs the SQL text on it
    once, unchanged, and releases it, whatever the query settles with.
    If the release resolves, the stream delivers what the query settled
    with: its rows, or its error as it is. If the release rejects, the
    stream fails with the error of the release, also when the query had
    succeeded. *)
Theorem query_settles_after_release sql w qr h1 r2 h2 r3 h3 :
  refused w = false ->
  provide X (provider_at w) (heap w) = (Returns qr, h1) ->
  runner_query X qr sql h1 = (r2, h2) ->
  release X (provider_at w) qr h2 = (r3, h3) ->
  snd (subscribe (stream_of X (QueryCall sql)) w) =
    after w h3 [Provide (provider_at w); RunQuery qr sql; Release (provider_at w) qr] /\
  (r3 = Returns tt ->
   fst (subscribe (stream_of X (QueryCall sql)) w) = notifications r2) /\
  (forall e, r3 = Throws e ->
   fst (subscribe (stream_of X (QueryCall sql)) w) = [Error e]).
Proof.
  intros G P Q R.
  rewrite subscribe_runs_thunk. cbn [thunk_of].
  rewrite (query_acquired Env X sql w qr h1 r2 h2 r3 h3 G P Q R). cbn [fst snd].
  split; [reflexivity|]. split.
  - intros ->. reflexivity.
  - intros e ->. reflexivity.
Qed.

(** X6: when [beginTransaction()] rejects with [e], the unit of work is
    not run and [commitTransaction()] is not called, but
    [rollbackTransaction()] is, followed by [release()]; the stream fails
    with [e] if the rollback and the release resolve. *)
Theorem transaction_begin_rejection_rolls_back fn w qr h1 e h2 r3 h3 r4 h4 :
  refused w = false ->
  provide X (provider_at w) (heap w) = (Returns qr, h1) ->
  beginTransaction X qr h1 = (Throws e, h2) ->
  rollbackTransaction X qr h2 = (r3, h3) ->
  release X (provider_at w) qr h3 = (r4, h4) ->
  snd (subscribe (stream_of X (TransactionCall fn)) w) =
    after w h4 [Provide (provider_at w); BeginTransaction qr;
                RollbackTransaction qr; Release (provider_at w) qr] /\
  (r3 = Returns tt -> r4 = Returns tt ->
   fst (subscribe (stream_of X (TransactionCall fn)) w) = [Error e]).
Proof.
  intros G P B RB R.
  rewrite subscribe_runs_thunk. cbn [thunk_of].
  rewrite (transaction_begin_rejected Env X fn w qr h1 e h2 r3 h3 r4 h4 G P B RB R).
  cbn [fst snd]. split; [reflexivity|].
  intros -> ->. reflexivity.
Qed.

(** X7: when the unit of work resolves and [commitTransaction()] rejects
    with [e], [rollbackTransaction()] is called once, after the commit,
    then [release()]; the stream never delivers the value of the unit of
    work, and it fails with [e] if the rollback and the release
    resolve. *)
Theorem transaction_commit_rejection_rolls_back fn w qr h1 h2 v h3 ops e h4 r5 h5 r6 h6 :
  refused w = false ->
  provide X (provider_at w) (heap w) = (Returns qr, h1) ->
  beginTransaction X qr h1 = (Returns tt, h2) ->
  fn h2 = (Returns v, h3, ops) ->
  commitTransaction X qr h3 = (Throws e, h4) ->
  rollbackTransaction X qr h4 = (r5, h5) ->
  release X (provider_at w) qr h5 = (r6, h6) ->
  snd (subscribe (stream_of X (TransactionCall fn)) w) =
    after w h6 ([Provide (provider_at w); BeginTransaction qr] ++ map UnitOfWorkOp ops
                ++ [CommitTransaction qr; RollbackTransaction qr]
                ++ [Release (provider_at w) qr]) /\
  (exists e', fst (subscribe (stream_of X (TransactionCall fn)) w) = [Error e']) /\
  (r5 = Returns tt -> r6 = Returns tt ->
   fst (subscribe (stream_of X (TransactionCall fn)) w) = [Error e]).
Proof.
  intros G P B F C RB R.
  rewrite subscribe_runs_thunk. cbn [thunk_of].
  rewrite (transaction_commit_rejected Env X fn w qr h1 tt h2 v h3 ops e h4 r5 h5 r6 h6
             G P B F C RB R).
  cbn [fst snd]. split; [reflexivity|]. split.
  - destruct r5, r6; cbn; eexists; reflexivity.
  - intros -> ->. reflexivity.
Qed.

(** X8: when the unit of work resolves, [commitTransaction()] resolves
    and [release()] rejects with [e], the stream fails with [e] although
    the transaction was committed and no rollback was called. *)
Theorem transaction_release_rejection_hides_commit fn w qr h1 h2 v h3 ops h4 e h5 :
  refused w = false ->
  provide X (provider_at w) (heap w) = (Returns qr, h1) ->
  beginTransaction X qr h1 = (Returns tt, h2) ->
  fn h2 = (Returns v, h3, ops) ->
  commitTransaction X qr h3 = (Returns tt, h4) ->
  release X (provider_at w) qr h4 = (Throws e, h5) ->
  let t := [Provide (provider_at w); BeginTransaction qr] ++ map UnitOfWorkOp ops
           ++ [CommitTransaction qr] ++ [Release (provider_at w) qr] in
  subscribe (stream_of X (TransactionCall fn)) w = ([Error e], after w h5 t) /\
  count is_commit t = 1 /\ count is_rollback t = 0.
Proof.
  intros G P B F C R t.
  rewrite subscribe_runs_thunk. cbn [thunk_of].
  rewrite (transaction_committed Env X fn w qr h1 tt h2 v h3 ops tt h4 _ h5 G P B F C R).
  cbn [fst snd finally_after notifications].
  split; [reflexivity|].
  subst t. split; count_effects; reflexivity.
Qed.

(** X9: an activation constructs at most one provider: none when it is
    refused or when the manager's provider field is set, exactly one
    otherwise, whatever happens afterwards. *)
Theorem activation_constructs_at_most_one_provider (c : Call Env) w :
  constructed (snd (subscribe (stream_of X c) w)) =
    if refused w then constructed w
    else match queryRunnerProvider (this (heap w)) with
         | Some _ => constructed w
         | None => S (constructed w)
         end.
Proof.
  rewrite subscribe_runs_thunk. cbn [snd].
  destruct (refused w) eqn:G.
  - rewrite (thunk_refused Env X c w G). reflexivity.
  - destruct (thunk_proceeds Env X c w G) as (r & h & t & E).
    rewrite E. reflexivity.
Qed.

End LifecycleEdges.

(** * Sequences of subscriptions *)

Lemma count_zero_on_provider p (t : list Effect) :
  count is_provide t = 0 -> count is_release t = 0 -> Forall (on_provider p) t.
Proof.
  unfold count.
  induction t as [|e t IH]; intros Hp Hr; [constructor|].
  destruct e; cbn in *; try discriminate;
    (constructor; [exact I | apply IH; assumption]).
Qed.

Section Sequences.

Variable Env : Type.
Variable X : Collaborators Env.

Implicit Types (w : World Env) (cs : list (Call Env)).

Lemma subscribe_all_cons (c : Call Env) cs w :
  subscribe_all X (c :: cs) w =
    (fst (subscribe (stream_of X c) w)
       :: fst (subscribe_all X cs (snd (subscribe (stream_of X c) w))),
     snd (subscribe_all X cs (snd (subscribe (stream_of X c) w)))).
Proof.
  cbn [subscribe_all].
  destruct (subscribe (stream_of X c) w) as [n w1]. cbn [fst snd].
  destruct (subscribe_all X cs w1) as [ns w2]. reflexivity.
Qed.

(** What one activation adds to the log, whatever its calls settle
    with. *)
Lemma activation_counts (c : Call Env) w :
  exists t,
    trace (snd (subscribe (stream_of X c) w)) = trace w ++ t /\
    count is_provide t <= 1 /\
    count is_release t <= count is_provide t /\
    count is_begin t <= count is_release t /\
    count is_commit t <= count is_begin t /\
    count is_rollback t <= count is_begin t.
Proof.
  rewrite subscribe_runs_thunk. cbn [snd].
  destruct (refused w) eqn:G.
  { exists []. rewrite (thunk_refused Env X c w G), app_nil_r. cbn.
    repeat split; lia. }
  destruct (provide X (provider_at w) (heap w)) as [[qr|e] h1] eqn:P.
  2:{ exists [Provide (provider_at w)].
      rewrite (thunk_not_acquired Env X c w e h1 G P). cbn.
      split; [reflexivity|]. repeat split; lia. }
  destruct c as [sql|fn]; cbn [thunk_of].
  - destruct (query_shape Env X sql w qr h1 G P) as (r & h & E).
    exists [Provide (provider_at w); RunQuery qr sql; Release (provider_at w) qr].
    rewrite E. cbn. split; [reflexivity|]. repeat split; lia.
  - destruct (transaction_shape Env X fn w qr h1 G P) as (r & h & ops & d & E & D & _).
    exists ([Provide (provider_at w); BeginTransaction qr] ++ map UnitOfWorkOp ops
            ++ d ++ [Release (provider_at w) qr]).
    rewrite E. cbn [snd after trace]. split; [reflexivity|].
    pose proof (decision_counts qr d D) as (Dc & Db & _ & Dp & Dr & Dg).
    repeat split; count_effects; lia.
Qed.

(** What an activation that is not refused adds to the log. *)
Lemma activation_unrefused (c : Call Env) w :
  refused w = false ->
  exists r h t,
    thunk_of X c w = (r, after w h t) /\
    count is_provide t = 1 /\
    Forall (on_provider (provider_at w)) t.
Proof.
  intros G.
  destruct (provide X (provider_at w) (heap w)) as [[qr|e] h1] eqn:P.
  - destruct (thunk_acquired Env X c w qr h1 G P) as (r & h & mid & E & Mp & Mr).
    eexists _, _, _. split; [exact E|]. split.
    + change (Provide (provider_at w) :: mid ++ [Release (provider_at w) qr])
        with ([Provide (provider_at w)] ++ mid ++ [Release (provider_at w) qr]).
      count_effects. lia.
    + constructor; [reflexivity|].
      apply Forall_app. split; [apply count_zero_on_provider; assumption|].
      constructor; [reflexivity | constructor].
  - eexists _, _, _. split; [eapply thunk_not_acquired; eassumption|].
    split; [reflexivity|]. constructor; [reflexivity | constructor].
Qed.

Lemma subscribe_all_unrefused cs : forall w,
  collaborators_keep_manager X ->
  Forall call_keeps_manager cs ->
  refused w = false ->
  this (heap (snd (subscribe_all X cs w))) = this (heap w) /\
  exists t,
    trace (snd (subscribe_all X cs w)) = trace w ++ t /\
    count is_provide t = List.length cs /\
    (forall p, queryRunnerProvider (this (heap w)) = Some p ->
       constructed (snd (subscribe_all X cs w)) = constructed w /\
       Forall (on_provider p) t) /\
    (queryRunnerProvider (this (heap w)) = None ->
       constructed (snd (subscribe_all X cs w)) = constructed w + List.length cs).
Proof.
  induction cs as [|c cs IH]; intros w KX Kcs G.
  { cbn. split; [reflexivity|]. exists []. rewrite app_nil_r.
    split; [reflexivity|]. split; [reflexivity|].
    split; [intros p _; split; [reflexivity | constructor] | intros _; lia]. }
  inversion Kcs as [|c' cs' Kc Kcs']; subst.
  rewrite subscribe_all_cons. cbn [snd].
  set (w1 := snd (subscribe (stream_of X c) w)).
  assert (M1 : this (heap w1) = this (heap w)).
  { subst w1. rewrite subscribe_runs_thunk. apply thunk_preserves_manager; assumption. }
  assert (G1 : refused w1 = false).
  { unfold refused in *. rewrite M1. exact G. }
  destruct (activation_unrefused c w G) as (r & h & t1 & E & P1 & F1).
  assert (W1 : w1 = after w h t1).
  { subst w1. rewrite subscribe_runs_thunk, E. reflexivity. }
  destruct (IH w1 KX Kcs' G1) as (M & t2 & T2 & P2 & S2 & N2).
  split; [rewrite M; exact M1|].
  exists (t1 ++ t2).
  split; [rewrite T2, W1; cbn; rewrite app_assoc; reflexivity|].
  split; [rewrite count_app, P1, P2; reflexivity|].
  rewrite M1 in S2, N2.
  assert (C1 : constructed w1 = constructed_at w) by (rewrite W1; reflexivity).
  split.
  - intros p Fp. destruct (S2 p Fp) as [Sc Sf].
    unfold provider_at, constructed_at in *. rewrite Fp in *.
    split; [rewrite Sc; exact C1|].
    apply Forall_app. split; assumption.
  - intros Fn. rewrite (N2 Fn), C1.
    unfold constructed_at. rewrite Fn. cbn. lia.
Qed.

(** X10: a single-connection manager that has been released stays
    inert: whatever streams of [query] and [transaction] are subscribed
    to, and however many, each fails with
    [EntityManagerAlreadyReleasedError] and the world stays as it was. *)
Theorem released_manager_stays_inert cs w :
  useSingleDatabaseConnection (this (heap w)) = true ->
  isReleased (this (heap w)) = true ->
  subscribe_all X cs w =
    (map (fun _ => [Error EntityManagerAlreadyReleasedError]) cs, w).
Proof.
  intros S R.
  assert (G : refused w = true) by (unfold refused; rewrite S, R; reflexivity).
  induction cs as [|c cs IH]; [reflexivity|].
  rewrite subscribe_all_cons, subscribe_runs_thunk, (thunk_refused Env X c w G).
  cbn [fst snd notifications map]. rewrite IH. reflexivity.
Qed.

(** X11: over any sequence of subscriptions to streams of [query] and
    [transaction], with collaborators that settle in any way, the log
    never holds more releases than acquisitions, more begun transactions
    than releases, or more commits or more rollbacks than begun
    transactions; and there is at most one acquisition per
    subscription. *)
Theorem releases_never_exceed_acquisitions cs : forall w,
  exists t,
    trace (snd (subscribe_all X cs w)) = trace w ++ t /\
    count is_provide t <= List.length cs /\
    count is_release t <= count is_provide t /\
    count is_begin t <= count is_release t /\
    count is_commit t <= count is_begin t /\
    count is_rollback t <= count is_begin t.
Proof.
  induction cs as [|c cs IH]; intros w.
  { exists []. cbn. rewrite app_nil_r. repeat split; lia. }
  rewrite subscribe_all_cons. cbn [snd].
  destruct (activation_counts c w) as (t1 & T1 & A1 & A2 & A3 & A4 & A5).
  destruct (IH (snd (subscribe (stream_of X c) w))) as (t2 & T2 & B1 & B2 & B3 & B4 & B5).
  exists (t1 ++ t2).
  split; [rewrite T2, T1, app_assoc; reflexivity|].
  rewrite !count_app. cbn [List.length]. repeat split; lia.
Qed.

(** X12: on a manager whose provider field holds [p] and that is not
    refused, with collaborators and units of work that leave the manager
    object alone, every subscription of a sequence acquires from [p] and
    releases to [p]: the log gains one [provide()] per subscription, every
    [provide()] and [release()] in it concerns [p], no provider is
    constructed and the manager object is unchanged at the end. *)
Theorem shared_provider_serves_every_call cs w p :
  collaborators_keep_manager X ->
  Forall call_keeps_manager cs ->
  refused w = false ->
  queryRunnerProvider (this (heap w)) = Some p ->
  this (heap (snd (subscribe_all X cs w))) = this (heap w) /\
  constructed (snd (subscribe_all X cs w)) = constructed w /\
  exists t,
    trace (snd (subscribe_all X cs w)) = trace w ++ t /\
    count is_provide t = List.length cs /\
    Forall (on_provider p) t.
Proof.
  intros KX Kcs G F.
  destruct (subscribe_all_unrefused cs w KX Kcs G) as (M & t & T & P & S & _).
  destruct (S p F) as [Sc Sf].
  split; [exact M|]. split; [exact Sc|].
  exists t. repeat split; assumption.
Qed.

(** X13: on a manager whose provider field is unset and that is not
    refused, with collaborators and units of work that leave the manager
    object alone, a sequence of subscriptions constructs one provider per
    subscription and makes one [provide()] call per subscription, and the
    field is still unset at the end. *)
Theorem unset_field_constructs_one_provider_per_call cs w :
  collaborators_keep_manager X ->
  Forall call_keeps_manager cs ->
  refused w = false ->
  queryRunnerProvider (this (heap w)) = None ->
  constructed (snd (subscribe_all X cs w)) = constructed w + List.length cs /\
  queryRunnerProvider (this (heap (snd (subscribe_all X cs w)))) = None /\
  exists t,
    trace (snd (subscribe_all X cs w)) = trace w ++ t /\
    count is_provide t = List.length cs.
Proof.
  intros KX Kcs G F.
  destruct (subscribe_all_unrefused cs w KX Kcs G) as (M & t & T & P & _ & N).
  split; [exact (N F)|]. split; [rewrite M; exact F|].
  exists t. split; assumption.
Qed.

End Sequences.

(** ** Concrete runs of the further properties *)

(** The query is rejected: the runner is released and the stream fails
    with the error of the query. *)
Lemma query_settles_after_release_witness :
  trace (snd (subscribe (stream_of (scripted query_fails) (QueryCall "SELECT 1")) per_call)) =
    [Provide 0; RunQuery 100 "SELECT 1"; Release 0 100] /\
  fst (subscribe (stream_of (scripted query_fails) (QueryCall "SELECT 1")) per_call) =
    [Error (failure "query")].
Proof.
  destruct (query_settles_after_release nat (scripted query_fails) "SELECT 1" per_call
              100 (heap per_call) (Throws (failure "query")) _ (Returns tt) _
              eq_refl eq_refl eq_refl eq_refl) as (W & N & _).
  split; [rewrite W; reflexivity | exact (N eq_refl)].
Defined.

Lemma transaction_begin_rejection_rolls_back_witness :
  trace (snd (subscribe (stream_of (scripted begin_fails) (TransactionCall persist_then_42))
                single)) =
    [Provide 5; BeginTransaction 105; RollbackTransaction 105; Release 5 105] /\
  fst (subscribe (stream_of (scripted begin_fails) (TransactionCall persist_then_42))
         single) = [Error (failure "begin")].
Proof.
  destruct (transaction_begin_rejection_rolls_back nat (scripted begin_fails)
              persist_then_42 single 105 (heap single) (failure "begin") (heap single)
              (Returns tt) (heap single) (Returns tt) (heap single)
              eq_refl eq_refl eq_refl eq_refl eq_refl) as (W & N).
  split; [rewrite W; reflexivity | exact (N eq_refl eq_refl)].
Defined.

Lemma transaction_commit_rejection_rolls_back_witness :
  trace (snd (subscribe (stream_of (scripted commit_fails) (TransactionCall persist_then_42))
                single)) =
    [Provide 5; BeginTransaction 105; UnitOfWorkOp "persist(x)";
     CommitTransaction 105; RollbackTransaction 105; Release 5 105] /\
  fst (subscribe (stream_of (scripted commit_fails) (TransactionCall persist_then_42))
         single) = [Error (failure "commit")].
Proof.
  destruct (transaction_commit_rejection_rolls_back nat (scripted commit_fails)
              persist_then_42 single 105 (heap single) (heap single) (JsNumber 42)
              (heap single) ["persist(x)"] (failure "commit") (heap single)
              (Returns tt) (heap single) (Returns tt) (heap single)
              eq_refl eq_refl eq_refl eq_refl eq_refl eq_refl eq_refl) as (W & _ & N).
  split; [rewrite W; reflexivity | exact (N eq_refl eq_refl)].
Defined.

Lemma transaction_release_rejection_hides_commit_witness :
  subscribe (stream_of (scripted release_fails) (TransactionCall persist_then_42)) single =
    ([Error (failure "release")],
     after single (heap single)
       [Provide 5; BeginTransaction 105; UnitOfWorkOp "persist(x)";
        CommitTransaction 105; Release 5 105]).
Proof.
  exact (proj1 (transaction_release_rejection_hides_commit nat (scripted release_fails)
                  persist_then_42 single 105 (heap single) (heap single) (JsNumber 42)
                  (heap single) ["persist(x)"] (heap single) (failure "release")
                  (heap single)
                  eq_refl eq_refl eq_refl eq_refl eq_refl eq_refl)).
Defined.

Lemma released_manager_stays_inert_witness :
  subscribe_all (scripted all_resolve)
    [QueryCall "SELECT 1"; TransactionCall persist_then_42; QueryCall "SELECT 2"]
    single_released =
    ([[Error EntityManagerAlreadyReleasedError];
      [Error EntityManagerAlreadyReleasedError];
      [Error EntityManagerAlreadyReleasedError]], single_released).
Proof.
  exact (released_manager_stays_inert nat (scripted all_resolve)
           [QueryCall "SELECT 1"; TransactionCall persist_then_42; QueryCall "SELECT 2"]
           single_released eq_refl eq_refl).
Defined.

Lemma persist_then_42_keeps_manager :
  Forall (call_keeps_manager (Env:=nat))
    [QueryCall "SELECT 1"; TransactionCall persist_then_42; QueryCall "SELECT 2"].
Proof.
  constructor; [exact I|].
  constructor; [intros h; reflexivity|].
  constructor; [exact I | constructor].
Defined.

Lemma shared_provider_serves_every_call_witness :
  constructed
    (snd (subscribe_all (scripted all_resolve)
            [QueryCall "SELECT 1"; TransactionCall persist_then_42; QueryCall "SELECT 2"]
            single)) = 0 /\
  exists t,
    trace (snd (subscribe_all (scripted all_resolve)
                  [QueryCall "SELECT 1"; TransactionCall persist_then_42;
                   QueryCall "SELECT 2"] single)) = [] ++ t /\
    count is_provide t = 3 /\
    Forall (on_provider 5) t.
Proof.
  exact (proj2 (shared_provider_serves_every_call nat (scripted all_resolve)
                  [QueryCall "SELECT 1"; TransactionCall persist_then_42;
                   QueryCall "SELECT 2"] single 5
                  (scripted_keeps_manager all_resolve) persist_then_42_keeps_manager
                  eq_refl eq_refl)).
Defined.

Lemma unset_field_constructs_one_provider_per_call_witness :
  constructed
    (snd (subscribe_all (scripted all_resolve)
            [QueryCall "SELECT 1"; TransactionCall persist_then_42; QueryCall "SELECT 2"]
            single_unset)) = 3 /\
  queryRunnerProvider
    (this (heap (snd (subscribe_all (scripted all_resolve)
                        [QueryCall "SELECT 1"; TransactionCall persist_then_42;
                         QueryCall "SELECT 2"] single_unset)))) = None.
Proof.
  destruct (unset_field_constructs_one_provider_per_call nat (scripted all_resolve)
              [QueryCall "SELECT 1"; TransactionCall persist_then_42; QueryCall "SELECT 2"]
              single_unset
              (scripted_keeps_manager all_resolve) persist_then_42_keeps_manager
              eq_refl eq_refl) as (C & F & _).
  split; [exact C | exact F].
Defined.
